(** * Market Dashboard: data preparation and metrics pipeline

    A shallow embedding of [dashboard.py].  The script is a Streamlit page:
    every view ([current], [forecast], [fundamental], [news]) reads the
    module-level inputs [ticker] and [n_years], calls external collaborators
    (yfinance, Alpha Vantage, StockNews, Prophet) and pushes elements onto
    the page.  The embedding keeps that shape:

    - [np]  : numpy's float64 values and the reductions the script uses;
    - [pd]  : pandas cells, frames and the frame operations the script uses;
    - [st]  : the Streamlit page as a log of emitted elements, the function
              cache behind [st.cache_resource] / [st.cache_data], and the
              monad in which the views run;
    - the functions of [dashboard.py], under their own names.

    Numbers.  A float64 is modelled as an exact real, or one of the IEEE
    special values (signed infinity, NaN).  Rounding, overflow and the sign
    of zero are not modelled; the special values are, because [dropna] and
    the division in [get_metrics] depend on them. *)

From Stdlib Require Import Reals Lra Lia ZArith List String Bool Arith.
Import ListNotations.

Local Open Scope string_scope.
Local Open Scope list_scope.
Local Open Scope R_scope.

(* ===================================================================== *)
(** ** Exceptions *)

Inductive exn :=
| KeyError (key : string)
| TypeError
| ValueError (msg : string).

(** [result A]: the value of a Python expression that may raise. *)
Inductive result (A : Type) :=
| Ok (a : A)
| Raise (e : exn).
Arguments Ok {A} a.
Arguments Raise {A} e.

Definition rbind {A B} (r : result A) (k : A -> result B) : result B :=
  match r with
  | Ok a => k a
  | Raise e => Raise e
  end.

Fixpoint rmap {A B} (f : A -> result B) (l : list A) : result (list B) :=
  match l with
  | [] => Ok []
  | a :: l' => rbind (f a) (fun b => rbind (rmap f l') (fun bs => Ok (b :: bs)))
  end.

(* ===================================================================== *)
(** ** numpy *)

Module np.

Inductive float64 :=
| Fin (x : R)
| Inf (neg : bool)
| NaN.

Definition isnan (a : float64) : bool :=
  match a with NaN => true | _ => false end.

Definition is_zero (x : R) : bool := if Req_dec_T x 0 then true else false.
Definition is_neg (x : R) : bool := if Rlt_dec x 0 then true else false.

Definition add (a b : float64) : float64 :=
  match a, b with
  | NaN, _ | _, NaN => NaN
  | Inf s, Inf t => if Bool.eqb s t then Inf s else NaN
  | Inf s, Fin _ => Inf s
  | Fin _, Inf t => Inf t
  | Fin x, Fin y => Fin (x + y)
  end.

Definition sub (a b : float64) : float64 :=
  match a, b with
  | NaN, _ | _, NaN => NaN
  | Inf s, Inf t => if Bool.eqb s t then NaN else Inf s
  | Inf s, Fin _ => Inf s
  | Fin _, Inf t => Inf (negb t)
  | Fin x, Fin y => Fin (x - y)
  end.

Definition mul (a b : float64) : float64 :=
  match a, b with
  | NaN, _ | _, NaN => NaN
  | Inf s, Inf t => Inf (xorb s t)
  | Inf s, Fin y => if is_zero y then NaN else Inf (xorb s (is_neg y))
  | Fin x, Inf t => if is_zero x then NaN else Inf (xorb (is_neg x) t)
  | Fin x, Fin y => Fin (x * y)
  end.

(** True division of float64 scalars and arrays: a zero divisor raises
    nothing; it gives NaN for 0/0 and a signed infinity otherwise. *)
Definition div (a b : float64) : float64 :=
  match a, b with
  | NaN, _ | _, NaN => NaN
  | Inf _, Inf _ => NaN
  | Inf s, Fin y => Inf (xorb s (is_neg y))
  | Fin _, Inf _ => Fin 0
  | Fin x, Fin y =>
      if is_zero y then (if is_zero x then NaN else Inf (is_neg x))
      else Fin (x / y)
  end.

Definition sqrt (a : float64) : float64 :=
  match a with
  | NaN => NaN
  | Inf s => if s then NaN else Inf false
  | Fin x => if is_neg x then NaN else Fin (R_sqrt.sqrt x)
  end.

Definition sum (s : list float64) : float64 := fold_left add s (Fin 0).

Definition count (s : list float64) : float64 := Fin (INR (List.length s)).

(** The values a NaN-skipping reduction looks at. *)
Definition notna (s : list float64) : list float64 :=
  filter (fun a => negb (isnan a)) s.

(** [np.std(series)]: numpy hands a pandas Series to [Series.std] with
    [ddof=0], the population standard deviation of the non-NaN values:
    the square root of the mean squared distance to the mean. *)
Definition std (s : list float64) : float64 :=
  match notna s with
  | [] => NaN
  | v =>
      let avg := div (sum v) (count v) in
      let sqr := sum (map (fun a => let d := sub avg a in mul d d) v) in
      sqrt (div sqr (count v))
  end.

End np.

(* ===================================================================== *)
(** ** pandas *)

Module pd.

(** One cell of a frame, also used for row and column labels. *)
Inductive cell :=
| Num (x : np.float64)      (* float64, NaN included *)
| Int (z : Z)               (* int64 *)
| Str (s : string)          (* object: a Python str *)
| Stamp (t : Z)             (* datetime64 *)
| NA.                       (* None / NaT *)

Definition isna (c : cell) : bool :=
  match c with
  | Num np.NaN | NA => true
  | _ => false
  end.

(** A frame, row by row: each row carries its index label and one cell
    per column. *)
Record DataFrame := mkDF {
  index_name : option string;
  columns : list cell;
  rows : list (cell * list cell)
}.

Definition index (df : DataFrame) : list cell := map fst (rows df).

(** [df.empty]: some axis has length zero. *)
Definition empty (df : DataFrame) : bool :=
  match rows df, columns df with
  | [], _ | _, [] => true
  | _, _ => false
  end.

Definition is_label (name : string) (c : cell) : bool :=
  match c with
  | Str s => String.eqb s name
  | _ => false
  end.

(** [name in df.columns] *)
Definition has_column (name : string) (df : DataFrame) : bool :=
  existsb (is_label name) (columns df).

Fixpoint position (name : string) (cols : list cell) : option nat :=
  match cols with
  | [] => None
  | c :: cols' =>
      if is_label name c then Some O
      else option_map S (position name cols')
  end.

(** [df[name]]: the values of a column. *)
Definition getitem (name : string) (df : DataFrame) : result (list cell) :=
  match position name (columns df) with
  | Some k => Ok (map (fun r => nth k (snd r) NA) (rows df))
  | None => Raise (KeyError name)
  end.

(** The operand of float arithmetic: numbers as float64, a missing value
    as NaN; arithmetic on a str or a Timestamp is a TypeError. *)
Definition to_float (c : cell) : result np.float64 :=
  match c with
  | Num x => Ok x
  | Int z => Ok (np.Fin (IZR z))
  | NA => Ok np.NaN
  | Str _ | Stamp _ => Raise TypeError
  end.

(** [df[name]] as the operand of arithmetic or of a float reduction. *)
Definition numeric (name : string) (df : DataFrame)
  : result (list np.float64) :=
  rbind (getitem name df) (rmap to_float).

Fixpoint replace_nth {A} (k : nat) (a : A) (l : list A) : list A :=
  match l, k with
  | [], _ => []
  | _ :: l', O => a :: l'
  | b :: l', S k' => b :: replace_nth k' a l'
  end.

(** [df[name] = values]: overwrite the column when the label exists,
    append it as the last column otherwise.  The script only assigns
    series computed from the same frame, so the lengths agree. *)
Definition setitem (name : string) (values : list cell) (df : DataFrame)
  : DataFrame :=
  match position name (columns df) with
  | Some k =>
      mkDF (index_name df) (columns df)
        (map (fun rv => (fst (fst rv), replace_nth k (snd rv) (snd (fst rv))))
             (combine (rows df) values))
  | None =>
      mkDF (index_name df) (columns df ++ [Str name])
        (map (fun rv => (fst (fst rv), snd (fst rv) ++ [snd rv]))
             (combine (rows df) values))
  end.

(** [series.shift(1)] *)
Definition shift1 (s : list np.float64) : list np.float64 :=
  match s with
  | [] => []
  | _ => np.NaN :: removelast s
  end.

(** [series.mean()], NaN skipped. *)
Definition mean (s : list np.float64) : np.float64 :=
  match np.notna s with
  | [] => np.NaN
  | v => np.div (np.sum v) (np.count v)
  end.

Definition row_complete (r : cell * list cell) : bool :=
  forallb (fun c => negb (isna c)) (snd r).

(** [df.dropna()]: keep the rows without a missing cell in any column. *)
Definition dropna (df : DataFrame) : DataFrame :=
  mkDF (index_name df) (columns df) (filter row_complete (rows df)).

Definition positions (names : list string) (cols : list cell)
  : result (list nat) :=
  rmap (fun name => match position name cols with
                    | Some k => Ok k
                    | None => Raise (KeyError name)
                    end) names.

(** [df.dropna(subset=names)] *)
Definition dropna_subset (names : list string) (df : DataFrame)
  : result DataFrame :=
  rbind (positions names (columns df)) (fun ks =>
    Ok (mkDF (index_name df) (columns df)
          (filter (fun r => forallb (fun k => negb (isna (nth k (snd r) NA))) ks)
                  (rows df)))).

(** [df[names]]: the listed columns, in the listed order. *)
Definition select (names : list string) (df : DataFrame)
  : result DataFrame :=
  rbind (positions names (columns df)) (fun ks =>
    Ok (mkDF (index_name df) (map Str names)
          (map (fun r => (fst r, map (fun k => nth k (snd r) NA) ks))
               (rows df)))).

Fixpoint lookup (name : string) (mapping : list (string * string))
  : option string :=
  match mapping with
  | [] => None
  | (old, new) :: mapping' =>
      if String.eqb old name then Some new else lookup name mapping'
  end.

(** [df.rename(columns=mapping)] *)
Definition rename (mapping : list (string * string)) (df : DataFrame)
  : DataFrame :=
  mkDF (index_name df)
    (map (fun c => match c with
                   | Str s => match lookup s mapping with
                              | Some s' => Str s'
                              | None => c
                              end
                   | _ => c
                   end) (columns df))
    (rows df).

(** [pd.to_numeric(series, errors="coerce")] on one value: numbers stay,
    a str is parsed, and whatever does not parse becomes NaN.  The
    parser itself belongs to pandas and is a parameter. *)
Definition to_numeric1 (parse : string -> option np.float64) (c : cell)
  : cell :=
  match c with
  | Num x => Num x
  | Int z => Int z
  | Str s => match parse s with
             | Some x => Num x
             | None => Num np.NaN
             end
  | Stamp _ | NA => Num np.NaN
  end.

Definition to_numeric (parse : string -> option np.float64)
  (s : list cell) : list cell := map (to_numeric1 parse) s.

(** The label under which [reset_index] inserts the index. *)
Definition index_label (df : DataFrame) : string :=
  match index_name df with
  | Some s => s
  | None => "index"
  end.

(** [df.reset_index(inplace=True)]: the index becomes the first column,
    labelled with the index name ("index" when it has none), and the
    rows are renumbered.  pandas refuses to insert a label that is
    already a column. *)
Definition reset_index (df : DataFrame) : result DataFrame :=
  let name := index_label df in
  if has_column name df
  then Raise (ValueError (String.append "cannot insert " name))
  else Ok (mkDF None (Str name :: columns df)
             (map (fun ir => (Int (Z.of_nat (fst ir)),
                              fst (snd ir) :: snd (snd ir)))
                  (combine (seq 0 (List.length (rows df))) (rows df)))).

(** [df.T]: index labels become column labels and conversely. *)
Definition T (df : DataFrame) : DataFrame :=
  mkDF None (index df)
    (map (fun kc => (snd kc, map (fun r => nth (fst kc) (snd r) NA) (rows df)))
         (combine (seq 0 (List.length (columns df))) (columns df))).

(** [df[k:]]: the rows from position [k] on. *)
Definition from_row (k : nat) (df : DataFrame) : DataFrame :=
  mkDF (index_name df) (columns df) (skipn k (rows df)).

(** [df.iloc[k]]: the cells of the row at position [k]. *)
Definition iloc (k : nat) (df : DataFrame) : result (list cell) :=
  match nth_error (rows df) k with
  | Some r => Ok (snd r)
  | None => Raise (ValueError "single positional indexer is out-of-bounds")
  end.

(** [df.columns = labels] *)
Definition set_columns (labels : list cell) (df : DataFrame)
  : result DataFrame :=
  if Nat.eqb (List.length labels) (List.length (columns df))
  then Ok (mkDF (index_name df) labels (rows df))
  else Raise (ValueError "Length mismatch").

(** [df.head()] *)
Definition head (df : DataFrame) : DataFrame :=
  mkDF (index_name df) (columns df) (firstn 5 (rows df)).

End pd.

(* ===================================================================== *)
(** ** Streamlit *)

Module st.

Record scatter := mkScatter {
  name : string;
  x : list pd.cell;
  y : list pd.cell
}.

Inductive figure :=
| Scatters (traces : list scatter)        (* go.Figure of Scatter traces *)
| ForecastPlot (forecast : pd.DataFrame)  (* plot_plotly(model, forecast) *)
| Components (forecast : pd.DataFrame).   (* model.plot_components(forecast) *)

(** What [st.write] is given. *)
Inductive value :=
| Text (s : string)
| Frame (df : pd.DataFrame)
| Labels (l : list pd.cell)
| Fig (f : figure)
| PyNone.

(** A request sent to an external collaborator. *)
Inductive request :=
| YfDownload (ticker : string) (start_date today_date : Z)
| BalanceSheetAnnual (ticker : string)
| IncomeStatementAnnual (ticker : string)
| CashFlowAnnual (ticker : string)
| ReadRss (ticker : string)
| ProphetFit (df_train : pd.DataFrame) (periods : Z).

(** What a run of the script does, in order: the elements it puts on the
    page and the requests it sends out.  A metric records the number and
    the digits it is rounded to for display, [round(value, ndigits)]; the
    icons of messages and the spinners are left out. *)
Inductive event :=
| Warning (msg : string)
| Error (msg : string)
| Header (text : string)
| Subheader (text : string)
| Markdown (text : string)
| Divider
| PlotlyChart (fig : figure)
| WriteOut (args : list value)
| Metric (label : string) (value : np.float64) (ndigits : Z)
| Call (r : request).

Definition is_element (e : event) : bool :=
  match e with
  | Call _ => false
  | _ => true
  end.

(** The function cache shared by [st.cache_resource] and [st.cache_data]:
    per cached function and per key, the value returned and the elements
    to replay on a hit. *)
Definition entry : Type := option pd.DataFrame * list event.
Definition Cache : Type := list (string * list nat * entry).

(** A computation of the script: it runs against the cache, leaves a log
    and either returns or raises. *)
Definition M (A : Type) : Type := Cache -> list event * result A * Cache.

Definition ret {A} (a : A) : M A := fun c => ([], Ok a, c).

Definition bind {A B} (m : M A) (k : A -> M B) : M B :=
  fun c =>
    match m c with
    | (l1, Ok a, c1) =>
        match k a c1 with
        | (l2, r, c2) => (l1 ++ l2, r, c2)
        end
    | (l1, Raise e, c1) => (l1, Raise e, c1)
    end.

Definition lift {A} (r : result A) : M A := fun c => ([], r, c).

Definition emit (e : event) : M unit := fun c => ([e], Ok tt, c).

Definition warning (msg : string) : M unit := emit (Warning msg).
Definition error (msg : string) : M unit := emit (Error msg).
Definition header (text : string) : M unit := emit (Header text).
Definition subheader (text : string) : M unit := emit (Subheader text).
Definition markdown (text : string) : M unit := emit (Markdown text).
Definition divider : M unit := emit Divider.
Definition plotly_chart (fig : figure) : M unit := emit (PlotlyChart fig).
Definition write (args : list value) : M unit := emit (WriteOut args).
Definition metric (label : string) (value : np.float64) (ndigits : Z)
  : M unit := emit (Metric label value ndigits).
Definition call (r : request) : M unit := emit (Call r).

Definition log {A} (m : M A) (c : Cache) : list event := fst (fst (m c)).
Definition outcome {A} (m : M A) (c : Cache) : result A := snd (fst (m c)).
Definition cache_after {A} (m : M A) (c : Cache) : Cache := snd (m c).

(** [for a in l: body(a)] *)
Fixpoint for_each {A} (l : list A) (body : A -> M unit) : M unit :=
  match l with
  | [] => ret tt
  | a :: l' => bind (body a) (fun _ => for_each l' body)
  end.

(** The cache key of a call: the arguments, by hash, except those whose
    parameter name starts with an underscore, which Streamlit does not
    hash. *)
Definition hashed_args (params : list (string * nat)) : list nat :=
  map snd (filter (fun p => negb (String.prefix "_" (fst p))) params).

Fixpoint key_eqb (k1 k2 : list nat) : bool :=
  match k1, k2 with
  | [], [] => true
  | a :: k1', b :: k2' => Nat.eqb a b && key_eqb k1' k2'
  | _, _ => false
  end.

Fixpoint find (fname : string) (key : list nat) (c : Cache) : option entry :=
  match c with
  | [] => None
  | (f, k, e) :: c' =>
      if String.eqb f fname && key_eqb k key then Some e
      else find fname key c'
  end.

(** A function under [@st.cache_resource] or [@st.cache_data]: on a hit
    the stored value is returned and the stored elements are replayed,
    the body does not run; on a miss the body runs and, unless it raises,
    its value and elements are stored. *)
Definition cached (fname : string) (params : list (string * nat))
  (body : M (option pd.DataFrame)) : M (option pd.DataFrame) :=
  fun c =>
    let key := hashed_args params in
    match find fname key c with
    | Some (v, replay) => (replay, Ok v, c)
    | None =>
        match body c with
        | (l, Ok v, c') => (l, Ok v, (fname, key, (v, filter is_element l)) :: c')
        | (l, Raise e, c') => (l, Raise e, c')
        end
    end.

End st.

Declare Scope page_scope.
Delimit Scope page_scope with page.
Notation "x <- m ;; k" := (st.bind m (fun x => k))
  (at level 61, m at next level, right associativity) : page_scope.
Notation "m ;; k" := (st.bind m (fun _ => k))
  (at level 61, right associativity) : page_scope.

(* ===================================================================== *)
(** ** External collaborators *)

(** The Alpha Vantage client: [handle] is the identity of the Python
    object; each endpoint returns (table, metadata), of which the script
    takes the table. *)
Record FundamentalData := mkFD {
  handle : nat;
  get_balance_sheet_annual : string -> pd.DataFrame;
  get_income_statement_annual : string -> pd.DataFrame;
  get_cash_flow_annual : string -> pd.DataFrame
}.

(** One row of the frame returned by [StockNews.read_rss], with the
    columns the script reads, already formatted. *)
Record Article := mkArticle {
  title : string;
  published : string;
  summary : string;
  sentiment_title : string;
  sentiment_summary : string
}.

(** Everything outside the script.  The market data, fundamentals and
    news sources are taken to answer.  Prophet may raise: [prophet] is
    fit, make_future_dataframe and predict in one, and gives what they
    return or raise (a ValueError, for one, on fewer than two rows). *)
Record World := mkWorld {
  today : Z;                                        (* day number *)
  yf_download : string -> Z -> Z -> pd.DataFrame;   (* yf.download *)
  getenv : string -> option string;                 (* os.getenv *)
  connect : string -> FundamentalData;              (* the client of a key *)
  read_rss : string -> list Article;
  prophet : pd.DataFrame -> Z -> result pd.DataFrame;
  parse_float : string -> option np.float64         (* pandas' number parser *)
}.

(** [FundamentalData(key, output_format="pandas")]: given no key the
    constructor looks for ALPHAVANTAGE_API_KEY in the environment, and
    with no key at all, or an empty one, it raises a ValueError. *)
Definition FundamentalData_init (W : World) (key : option string)
  : result FundamentalData :=
  let key := match key with
             | Some k => Some k
             | None => getenv W "ALPHAVANTAGE_API_KEY"
             end in
  match key with
  | Some (String a k) => Ok (connect W (String a k))
  | _ => Raise (ValueError "The Alpha Vantage API key must be provided")
  end.

(** Python truthiness of a str. *)
Definition truthy (s : string) : bool :=
  match s with
  | EmptyString => false
  | String _ _ => true
  end.

(* ===================================================================== *)
(** ** dashboard.py *)

Section Dashboard.

Local Open Scope page_scope.

Variable W : World.

(** The two inputs of the page: [st.text_input] and [st.slider]. *)
Variable ticker : string.
Variable n_years : Z.

Definition today_date : Z := today W.
Definition start_date : Z := (today W - n_years * 365)%Z.

(** [yf.download(ticker, start=start_date, end=today_date)] *)
Definition download : pd.DataFrame :=
  yf_download W ticker start_date today_date.

Definition load_data : st.M pd.DataFrame :=
  st.call (st.YfDownload ticker start_date today_date) ;;
  st.lift (pd.reset_index download).

Definition plot_ticker_data (data : pd.DataFrame) : st.M unit :=
  date <- st.lift (pd.getitem "Date" data) ;;
  open <- st.lift (pd.getitem "Open" data) ;;
  close <- st.lift (pd.getitem "Close" data) ;;
  last <- (if pd.has_column "Adj Close" data
           then adj <- st.lift (pd.getitem "Adj Close" data) ;;
                st.ret (st.mkScatter "Adj. Close" date adj)
           else st.ret (st.mkScatter "Adj. Close (using Close)" date close)) ;;
  st.plotly_chart
    (st.Scatters [st.mkScatter "Stock Open" date open;
                  st.mkScatter "Stock Close" date close;
                  last]).

Definition get_metrics (data_copy : pd.DataFrame) : st.M unit :=
  pct <- st.lift (pd.numeric "% Change" data_copy) ;;
  let annual_return :=
    np.mul (np.mul (pd.mean pct) (np.Fin 252)) (np.Fin 100) in
  let st_dev := np.mul (np.std pct) (np.sqrt (np.Fin 252)) in
  st.metric "Annual Return" annual_return 4 ;;
  st.metric "Standard Deviation" st_dev 4 ;;
  st.metric "Risk Adjusted Return"
    (np.div annual_return (np.mul st_dev (np.Fin 100))) 4.

(** [price / price.shift(1) - 1] *)
Definition pct_change (price : list np.float64) : list np.float64 :=
  map (fun pq => np.sub (np.div (fst pq) (snd pq)) (np.Fin 1))
      (combine price (pd.shift1 price)).

(** Line 104 of [current]: "Adj Close" when the table has it, else
    "Close". *)
Definition price_column (data : pd.DataFrame) : string :=
  if pd.has_column "Adj Close" data then "Adj Close" else "Close".

(** Lines 103-106 of [current]: the copy of the table with its
    "% Change" column, rows with a missing value dropped. *)
Definition pct_change_frame (data : pd.DataFrame) : result pd.DataFrame :=
  let data_copy := data in
  let price_col := price_column data in
  rbind (pd.numeric price_col data_copy) (fun price =>
    let data_copy :=
      pd.setitem "% Change" (map pd.Num (pct_change price)) data_copy in
    Ok (pd.dropna data_copy)).

Definition current : st.M unit :=
  if negb (truthy ticker) then
    st.warning "Stock Ticker Empty"
  else
    data <- load_data ;;
    if pd.empty data then
      st.error "Invalid Ticker"
    else
      st.subheader "Time Series Chart" ;;
      plot_ticker_data data ;;
      st.subheader "Stock Analysis" ;;
      data_copy <- st.lift (pct_change_frame data) ;;
      st.write [st.Frame data_copy] ;;
      st.divider ;;
      get_metrics data_copy.

Definition show (r : option pd.DataFrame) : st.value :=
  match r with
  | Some df => st.Frame df
  | None => st.PyNone
  end.

Definition get_balance_sheet (_fd : FundamentalData)
  : st.M (option pd.DataFrame) :=
  st.cached "get_balance_sheet" [("_fd", handle _fd)]
    (st.call (st.BalanceSheetAnnual ticker) ;;
     let balance_sheet := get_balance_sheet_annual _fd ticker in
     if pd.empty balance_sheet then
       st.error "Invalid Ticker" ;; st.ret None
     else
       let bs := pd.from_row 2 (pd.T balance_sheet) in
       labels <- st.lift (pd.iloc 0 (pd.T balance_sheet)) ;;
       bs <- st.lift (pd.set_columns labels bs) ;;
       st.ret (Some bs)).

Definition get_income_statement (_fd : FundamentalData)
  : st.M (option pd.DataFrame) :=
  st.cached "get_income_statement" [("_fd", handle _fd)]
    (st.call (st.IncomeStatementAnnual ticker) ;;
     let income_statement := get_income_statement_annual _fd ticker in
     if pd.empty income_statement then
       st.error "Invalid Ticker" ;; st.ret None
     else
       let ics := pd.from_row 2 (pd.T income_statement) in
       st.ret (Some ics)).

Definition get_cashflow_statement (_fd : FundamentalData)
  : st.M (option pd.DataFrame) :=
  st.cached "get_cashflow_statement" [("_fd", handle _fd)]
    (st.call (st.CashFlowAnnual ticker) ;;
     let cash_flow := get_cash_flow_annual _fd ticker in
     if pd.empty cash_flow then
       st.error "Invalid Ticker" ;; st.ret None
     else
       let cf := pd.from_row 2 (pd.T cash_flow) in
       labels <- st.lift (pd.iloc 0 (pd.T cash_flow)) ;;
       cf <- st.lift (pd.set_columns labels cf) ;;
       st.ret (Some cf)).

(** [not fd]: the client defines neither [__bool__] nor [__len__], so the
    object is truthy. *)
Definition client_truthy (fd : FundamentalData) : bool := true.

Definition fundamental : st.M unit :=
  if negb (truthy ticker) then
    st.warning "Stock Ticker Empty"
  else
    let key := getenv W "ALPHAVANTAGE_KEY" in
    fd <- st.lift (FundamentalData_init W key) ;;
    if negb (client_truthy fd) then
      st.error "API Limit Exceeded"
    else
      st.subheader "Balance Sheet" ;;
      bs <- get_balance_sheet fd ;;
      st.write [show bs] ;;
      st.subheader "Income Statement" ;;
      ics <- get_income_statement fd ;;
      st.write [show ics] ;;
      st.subheader "Cash Flow Statement" ;;
      cf <- get_cashflow_statement fd ;;
      st.write [show cf].

Definition train_model (df_train : pd.DataFrame) : st.M pd.DataFrame :=
  st.call (st.ProphetFit df_train (n_years * 365)%Z) ;;
  st.lift (prophet W df_train (n_years * 365)%Z).

Definition plot_forecast_data (data : pd.DataFrame) : st.M unit :=
  st.subheader "Forecast Chart" ;;
  st.plotly_chart (st.ForecastPlot data) ;;
  st.subheader "Forecast Components" ;;
  st.write [st.Fig (st.Components data)].

(** Lines 197-198 of [forecast]: the (date, price) columns under their
    Prophet names. *)
Definition forecast_columns (price_col : string) (data : pd.DataFrame)
  : result pd.DataFrame :=
  rbind (pd.select ["Date"; price_col] data) (fun df_train =>
    Ok (pd.rename [("Date", "ds"); (price_col, "y")] df_train)).

(** Lines 206-208 of [forecast]: rows with a missing timestamp or value
    dropped, values coerced to numbers, rows that did not coerce dropped. *)
Definition forecast_clean (df_train : pd.DataFrame) : result pd.DataFrame :=
  rbind (pd.dropna_subset ["ds"; "y"] df_train) (fun df_train =>
  rbind (pd.getitem "y" df_train) (fun y =>
    let df_train :=
      pd.setitem "y" (pd.to_numeric (parse_float W) y) df_train in
    pd.dropna_subset ["y"] df_train)).

(** Lines 186-190 of [forecast]: "Close" first, else "Adj Close". *)
Definition forecast_price_col (data : pd.DataFrame) : option string :=
  if pd.has_column "Close" data then Some "Close"
  else if pd.has_column "Adj Close" data then Some "Adj Close"
  else None.

Definition forecast : st.M unit :=
  if negb (truthy ticker) then
    st.warning "Stock Ticker Empty"
  else
    data <- load_data ;;
    if pd.empty data then
      st.error "Invalid Ticker"
    else
      match forecast_price_col data with
      | Some price_col =>
          if negb (pd.has_column "Date" data) then
            st.error "Data does not contain required columns for forecasting." ;;
            st.write [st.Text "Available columns:"; st.Labels (pd.columns data)]
          else
            df_train <- st.lift (forecast_columns price_col data) ;;
            let missing_cols :=
              filter (fun col => negb (pd.has_column col df_train))
                     ["ds"; "y"] in
            match missing_cols with
            | _ :: _ =>
                st.error (String.append "Missing columns after renaming: "
                            (String.concat ", " missing_cols)) ;;
                st.write [st.Frame (pd.head df_train)]
            | [] =>
                df_train <- st.lift (forecast_clean df_train) ;;
                if pd.empty df_train then
                  st.error "Prepared data for Prophet is empty after cleaning." ;;
                  st.write [st.Frame (pd.head df_train)]
                else
                  forecast_data <- train_model df_train ;;
                  plot_forecast_data forecast_data ;;
                  st.subheader "Forecast Analysis" ;;
                  st.write [st.Frame forecast_data]
            end
      | None =>
          st.error "Data does not contain required columns for forecasting." ;;
          st.write [st.Text "Available columns:"; st.Labels (pd.columns data)]
      end.

Definition news : st.M unit :=
  if negb (truthy ticker) then
    st.warning "Stock Ticker Empty"
  else
    st.header (String.append ticker " News") ;;
    st.call (st.ReadRss ticker) ;;
    let df_news := read_rss W ticker in
    st.for_each (firstn 10 df_news) (fun article =>
      st.divider ;;
      st.subheader (String.append "**" (String.append (title article) "**")) ;;
      st.markdown (String.append "_**Published:**_ " (published article)) ;;
      st.markdown (String.append "_" (String.append (summary article) "_")) ;;
      st.markdown
        (String.append "_**Sentiment:**_ :green[title="
           (String.append (sentiment_title article)
              (String.append ", body="
                 (String.append (sentiment_summary article) "]"))))).

(** The four tabs, in order. *)
Definition dashboard : st.M unit :=
  current ;; forecast ;; fundamental ;; news.

End Dashboard.

(* ===================================================================== *)
(** ** Vocabulary of the specification *)

(** The statistics as the specification words them, over the plain
    decimals of a ReturnSeries. *)
Definition total (rs : list R) : R := fold_right Rplus 0 rs.

Definition mean (rs : list R) : R := total rs / INR (List.length rs).

Definition populationStdDev (rs : list R) : R :=
  sqrt (total (map (fun r => Rsqr (r - mean rs)) rs) / INR (List.length rs)).

Definition annualReturnPct (rs : list R) : R := mean rs * 252 * 100.

Definition stdDevPct (rs : list R) : R :=
  populationStdDev rs * sqrt 252 * 100.

(** percentChange[i] = price[i]/price[i-1] - 1, for i >= 1. *)
Fixpoint percentChange (price : list R) : list R :=
  match price with
  | p0 :: (p1 :: _) as rest => (p1 / p0 - 1) :: percentChange rest
  | _ => []
  end.

(** The error taxonomy, and the message each error is rendered as; no
    message of the script renders an UndefinedRatioError. *)
Inductive signal :=
| EmptyTickerInput
| EmptyInputError
| MissingRequiredColumns
| EmptyAfterCleaningError
| QuotaOrCredentialError
| UndefinedRatioError.

Definition signal_of (e : st.event) : option signal :=
  match e with
  | st.Warning msg =>
      if String.eqb msg "Stock Ticker Empty" then Some EmptyTickerInput
      else None
  | st.Error msg =>
      if String.eqb msg "Invalid Ticker" then Some EmptyInputError
      else if String.eqb msg "API Limit Exceeded"
      then Some QuotaOrCredentialError
      else if String.eqb msg
                "Data does not contain required columns for forecasting."
      then Some MissingRequiredColumns
      else if String.eqb msg
                "Prepared data for Prophet is empty after cleaning."
      then Some EmptyAfterCleaningError
      else None
  | _ => None
  end.

Definition signals (s : signal) (l : list st.event) : Prop :=
  exists e, In e l /\ signal_of e = Some s.

Definition is_metric (e : st.event) : bool :=
  match e with
  | st.Metric _ _ _ => true
  | _ => false
  end.

(** No MetricsSummary on the page. *)
Definition no_metrics (l : list st.event) : Prop :=
  existsb is_metric l = false.

Definition is_fit (e : st.event) : bool :=
  match e with
  | st.Call (st.ProphetFit _ _) => true
  | _ => false
  end.

(** Nothing handed to the Forecast Adapter. *)
Definition no_fit (l : list st.event) : Prop :=
  existsb is_fit l = false.

(** The number shown under a metric label. *)
Fixpoint metric_value (label : string) (l : list st.event)
  : option np.float64 :=
  match l with
  | [] => None
  | st.Metric lab v _ :: l' =>
      if String.eqb lab label then Some v else metric_value label l'
  | _ :: l' => metric_value label l'
  end.

(** The ticker a request to a data source carries. *)
Definition request_ticker (r : st.request) : option string :=
  match r with
  | st.YfDownload t _ _ | st.BalanceSheetAnnual t
  | st.IncomeStatementAnnual t | st.CashFlowAnnual t | st.ReadRss t => Some t
  | st.ProphetFit _ _ => None
  end.

(** A value cell that holds a number. *)
Definition is_number (c : pd.cell) : bool :=
  match c with
  | pd.Num x => negb (np.isnan x)
  | pd.Int _ => true
  | _ => false
  end.

(** A row of the forecast input: a timestamp that is there and a value
    that is a number. *)
Definition clean_row (r : pd.cell * list pd.cell) : Prop :=
  exists ds y, snd r = [ds; y] /\ pd.isna ds = false /\ is_number y = true.

(** A ReturnSeries as the frame [get_metrics] receives: one "% Change"
    column of finite values. *)
Definition return_series (rs : list R) : pd.DataFrame :=
  pd.mkDF None [pd.Str "% Change"]
    (map (fun ir => (pd.Int (Z.of_nat (fst ir)), [pd.Num (np.Fin (snd ir))]))
         (combine (seq 1 (List.length rs)) rs)).

(** The row of the copy: the row of the table with the new cell last. *)
Definition extended (rv : (pd.cell * list pd.cell) * pd.cell)
  : pd.cell * list pd.cell :=
  (fst (fst rv), snd (fst rv) ++ [snd rv]).

(** The first column and the first row of a table. *)
Definition first_column (df : pd.DataFrame) : list pd.cell :=
  map (fun r => nth 0 (snd r) pd.NA) (pd.rows df).

Definition first_row (df : pd.DataFrame) : list pd.cell :=
  match pd.rows df with
  | r :: _ => snd r
  | [] => []
  end.

(** The transpose without its first two rows, under the given labels. *)
Definition transposed_from_2 (labels : list pd.cell) (df : pd.DataFrame)
  : pd.DataFrame :=
  pd.mkDF None labels (skipn 2 (pd.rows (pd.T df))).

(** The elements and the request of a retriever that runs. *)
Definition retrieval (r : st.request) (src : pd.DataFrame) : list st.event :=
  st.Call r :: (if pd.empty src then [st.Error "Invalid Ticker"] else []).

(** A retriever serves its first result again: called for [t1] and then
    for [t2], the second call returns what the first returned and sends
    no request. *)
Definition serves_first
  (retriever : string -> FundamentalData -> st.M (option pd.DataFrame))
  (t1 t2 : string) (fd1 fd2 : FundamentalData) (c : st.Cache) : Prop :=
  exists v,
    st.outcome (retriever t1 fd1) c = Ok v /\
    st.outcome (retriever t2 fd2) (st.cache_after (retriever t1 fd1) c) = Ok v /\
    forall r,
      ~ In (st.Call r)
           (st.log (retriever t2 fd2) (st.cache_after (retriever t1 fd1) c)).

(** The page of a view that stopped at the empty-ticker guard. *)
Definition stopped_at_guard (view : st.M unit) (c : st.Cache) : Prop :=
  view c = ([st.Warning "Stock Ticker Empty"], Ok tt, c).

(** A frame is rectangular: every row has one cell per column. *)
Definition rectangular (df : pd.DataFrame) : Prop :=
  forall r, In r (pd.rows df) ->
            List.length (snd r) = List.length (pd.columns df).

(** The labels [reset_index] numbers the rows with. *)
Definition range_index (n : nat) : list pd.cell :=
  map (fun i => pd.Int (Z.of_nat i)) (seq 0 n).

(** The requests in a log, in order. *)
Definition requests (l : list st.event) : list st.event :=
  filter (fun e => negb (st.is_element e)) l.

(** What [news] puts on the page for one article. *)
Definition article_block (article : Article) : list st.event :=
  [st.Divider;
   st.Subheader (String.append "**" (String.append (title article) "**"));
   st.Markdown (String.append "_**Published:**_ " (published article));
   st.Markdown (String.append "_" (String.append (summary article) "_"));
   st.Markdown
     (String.append "_**Sentiment:**_ :green[title="
        (String.append (sentiment_title article)
           (String.append ", body="
              (String.append (sentiment_summary article) "]"))))].

Definition is_divider (e : st.event) : bool :=
  match e with
  | st.Divider => true
  | _ => false
  end.

(** What the forecast view shows when a required column is not there. *)
Definition missing_columns_page (data : pd.DataFrame) : list st.event :=
  [st.Error "Data does not contain required columns for forecasting.";
   st.WriteOut [st.Text "Available columns:"; st.Labels (pd.columns data)]].

(** What the balance-sheet and the cash-flow retriever return for a
    source table, and what the income-statement retriever returns. *)
Definition statement_view (src : pd.DataFrame) : option pd.DataFrame :=
  if pd.empty src then None
  else Some (transposed_from_2 (first_column src) src).

Definition income_view (src : pd.DataFrame) : option pd.DataFrame :=
  if pd.empty src then None else Some (pd.from_row 2 (pd.T src)).

(** One section of the fundamentals view: heading, what the retriever
    emitted, the table. *)
Definition section_of (heading : string) (emitted : list st.event)
  (v : option pd.DataFrame) : list st.event :=
  st.Subheader heading :: emitted ++ [st.WriteOut [show v]].

(* ===================================================================== *)
(** ** Example inputs *)

(** The series of the specification's worked example. *)
Definition example_returns : list R := [1/100; -2/100; 15/1000; 0].

(** A single return: what two price bars leave. *)
Definition single_return : list R := [1/100].

(** Price tables as [load_data] returns them: Date, Open, Close, rows
    numbered from 0. *)
Definition price (v : R) : pd.cell := pd.Num (np.Fin v).

Definition bars_columns : list pd.cell :=
  [pd.Str "Date"; pd.Str "Open"; pd.Str "Close"].

(** Three trading days closing at 100, 110, 99. *)
Definition acme_bars : pd.DataFrame :=
  pd.mkDF None bars_columns
    [(pd.Int 0, [pd.Stamp 1; price 100; price 100]);
     (pd.Int 1, [pd.Stamp 2; price 100; price 110]);
     (pd.Int 2, [pd.Stamp 3; price 110; price 99])].

(** Two trading days, the second without an opening price. *)
Definition gap_bars : pd.DataFrame :=
  pd.mkDF None bars_columns
    [(pd.Int 0, [pd.Stamp 1; price 100; price 100]);
     (pd.Int 1, [pd.Stamp 2; pd.Num np.NaN; price 110])].

(** Tables as the market data source returns them: indexed by date. *)
Definition raw_bars (bars : list (Z * pd.cell * pd.cell)) : pd.DataFrame :=
  pd.mkDF (Some "Date") [pd.Str "Open"; pd.Str "Close"]
    (map (fun b => (pd.Stamp (fst (fst b)), [snd (fst b); snd b])) bars).

Definition no_bars : pd.DataFrame := raw_bars [].

(** Three days whose closing value is a text that is no number, None and
    NaN. *)
Definition unparsed_bars : pd.DataFrame :=
  raw_bars [(1%Z, price 100, pd.Str "n/a");
            (2%Z, price 100, pd.NA);
            (3%Z, price 110, pd.Num np.NaN)].

Definition one_bar : pd.DataFrame := raw_bars [(1%Z, price 100, price 100)].

(** An annual statement as Alpha Vantage returns it: one row per fiscal
    year, the period end in the first column. *)
Definition statement : pd.DataFrame :=
  pd.mkDF None
    [pd.Str "fiscalDateEnding"; pd.Str "reportedCurrency";
     pd.Str "totalAssets"; pd.Str "totalLiabilities"]
    [(pd.Int 0, [pd.Str "2023-12-31"; pd.Str "USD"; pd.Str "100"; pd.Str "60"]);
     (pd.Int 1, [pd.Str "2022-12-31"; pd.Str "USD"; pd.Str "90"; pd.Str "55"])].

(** The Alpha Vantage client of the examples: every ticker gets
    [statement]. *)
Definition demo_client : FundamentalData :=
  mkFD 7 (fun _ => statement) (fun _ => statement) (fun _ => statement).

(** A Prophet that refuses fewer than two rows and otherwise answers
    with its input. *)
Definition demo_prophet (df_train : pd.DataFrame) (periods : Z)
  : result pd.DataFrame :=
  match pd.rows df_train with
  | _ :: _ :: _ => Ok df_train
  | _ => Raise (ValueError "Dataframe has less than 2 non-NaN rows.")
  end.

(** A world whose market data source answers every download with [raw]
    and whose fundamentals source answers every ticker with [statement]. *)
Definition world_of (raw : pd.DataFrame) : World :=
  mkWorld 0
    (fun _ _ _ => raw)
    (fun _ => Some "demo")
    (fun _ => demo_client)
    (fun _ => [])
    demo_prophet
    (fun _ => None).

(** Another statement, and a client whose answer depends on the ticker. *)
Definition other_statement : pd.DataFrame :=
  pd.mkDF None
    [pd.Str "fiscalDateEnding"; pd.Str "reportedCurrency";
     pd.Str "totalAssets"]
    [(pd.Int 0, [pd.Str "2023-06-30"; pd.Str "EUR"; pd.Str "7"])].

Definition by_ticker (ticker : string) : pd.DataFrame :=
  if String.eqb ticker "ACME" then statement else other_statement.

Definition ticker_client : FundamentalData :=
  mkFD 7 by_ticker by_ticker by_ticker.

(** A download without an opening price: Close only, indexed by date. *)
Definition close_only : pd.DataFrame :=
  pd.mkDF (Some "Date") [pd.Str "Close"]
    [(pd.Stamp 1, [price 100]); (pd.Stamp 2, [price 110])].

(** A download whose index is not named: no Date column after loading. *)
Definition unnamed_index : pd.DataFrame :=
  pd.mkDF None [pd.Str "Open"; pd.Str "Close"]
    [(pd.Stamp 1, [price 100; price 100])].

(** The three trading days of [acme_bars], as downloaded. *)
Definition acme_raw : pd.DataFrame :=
  raw_bars [(1%Z, price 100, price 100);
            (2%Z, price 100, price 110);
            (3%Z, price 110, price 99)].

(** A feed of twelve articles. *)
Definition story (t : string) : Article := mkArticle t "today" "..." "0.1" "0.2".

Definition twelve_stories : list Article :=
  map story ["a"; "b"; "c"; "d"; "e"; "f"; "g"; "h"; "i"; "j"; "k"; "l"].

(** A world with twelve articles in the feed and no API key in the
    environment. *)
Definition newsy_world : World :=
  mkWorld 0 (fun _ _ _ => no_bars) (fun _ => None) (fun _ => demo_client)
    (fun _ => twelve_stories) demo_prophet (fun _ => None).

(** A second client, with a handle and statements of its own. *)
Definition other_client : FundamentalData :=
  mkFD 8 (fun _ => other_statement) (fun _ => other_statement)
         (fun _ => other_statement).

(** A client that has nothing for the ticker "NOPE". *)
Definition empty_statement : pd.DataFrame := pd.mkDF None [] [].

Definition nothing_for_nope (ticker : string) : pd.DataFrame :=
  if String.eqb ticker "NOPE" then empty_statement else statement.

Definition picky_client : FundamentalData :=
  mkFD 9 nothing_for_nope nothing_for_nope nothing_for_nope.

(** Two trading days, the first closing at zero. *)
Definition halted_bars : pd.DataFrame :=
  pd.mkDF None bars_columns
    [(pd.Int 0, [pd.Stamp 1; price 1; price 0]);
     (pd.Int 1, [pd.Stamp 2; price 1; price 5])].

(* ===================================================================== *)
(** * Proofs *)

(** ** numpy and pandas reductions on finite values *)

Lemma is_zero_false (x : R) : x <> 0 -> np.is_zero x = false.
Proof.
  intros Hx. unfold np.is_zero. destruct (Req_dec_T x 0); [contradiction | reflexivity].
Qed.

Lemma is_zero_true : np.is_zero 0 = true.
Proof.
  unfold np.is_zero. destruct (Req_dec_T 0 0); [reflexivity | contradiction].
Qed.

Lemma is_neg_false (x : R) : 0 <= x -> np.is_neg x = false.
Proof.
  intros Hx. unfold np.is_neg. destruct (Rlt_dec x 0); [lra | reflexivity].
Qed.

Lemma is_neg_true (x : R) : x < 0 -> np.is_neg x = true.
Proof.
  intros Hx. unfold np.is_neg. destruct (Rlt_dec x 0); [reflexivity | lra].
Qed.

Lemma div_fin (x y : R) :
  y <> 0 -> np.div (np.Fin x) (np.Fin y) = np.Fin (x / y).
Proof.
  intros Hy. simpl. now rewrite is_zero_false.
Qed.

Lemma notna_fin (rs : list R) : np.notna (map np.Fin rs) = map np.Fin rs.
Proof.
  unfold np.notna. induction rs as [|r rs IH]; simpl; [reflexivity|].
  now rewrite IH.
Qed.

Lemma fold_add_fin (rs : list R) (a : R) :
  fold_left np.add (map np.Fin rs) (np.Fin a) = np.Fin (a + total rs).
Proof.
  revert a. induction rs as [|r rs IH]; intros a; simpl.
  - f_equal. lra.
  - rewrite IH. f_equal. lra.
Qed.

Lemma sum_fin (rs : list R) : np.sum (map np.Fin rs) = np.Fin (total rs).
Proof.
  unfold np.sum. rewrite fold_add_fin. f_equal. lra.
Qed.

Lemma count_fin (rs : list R) :
  np.count (map np.Fin rs) = np.Fin (INR (List.length rs)).
Proof.
  unfold np.count. now rewrite length_map.
Qed.

Lemma INR_length_pos {A} (l : list A) : l <> [] -> 0 < INR (List.length l).
Proof.
  destruct l as [|a l]; [congruence|]. intros _.
  apply lt_0_INR. simpl. lia.
Qed.

Lemma mean_fin (rs : list R) :
  rs <> [] -> pd.mean (map np.Fin rs) = np.Fin (mean rs).
Proof.
  intros Hne. unfold pd.mean. rewrite notna_fin.
  destruct rs as [|r rs]; [congruence|].
  change (map np.Fin (r :: rs)) with (np.Fin r :: map np.Fin rs).
  cbv iota beta.
  change (np.Fin r :: map np.Fin rs) with (map np.Fin (r :: rs)).
  rewrite sum_fin, count_fin, div_fin; [reflexivity|].
  pose proof (INR_length_pos (r :: rs) Hne). lra.
Qed.

Lemma total_nonneg (rs : list R) : (forall r, In r rs -> 0 <= r) -> 0 <= total rs.
Proof.
  induction rs as [|r rs IH]; simpl; intros H; [lra|].
  pose proof (H r (or_introl eq_refl)).
  assert (0 <= total rs) by (apply IH; intros; apply H; now right).
  lra.
Qed.

Lemma squares_nonneg (m : R) (rs : list R) :
  0 <= total (map (fun r => Rsqr (r - m)) rs).
Proof.
  apply total_nonneg. intros r Hr. apply in_map_iff in Hr.
  destruct Hr as [x [<- _]]. apply Rle_0_sqr.
Qed.

Lemma std_fin (rs : list R) :
  rs <> [] -> np.std (map np.Fin rs) = np.Fin (populationStdDev rs).
Proof.
  intros Hne. unfold np.std. rewrite notna_fin.
  destruct rs as [|r rs]; [congruence|].
  change (map np.Fin (r :: rs)) with (np.Fin r :: map np.Fin rs).
  cbv iota beta zeta.
  change (np.Fin r :: map np.Fin rs) with (map np.Fin (r :: rs)).
  pose proof (INR_length_pos (r :: rs) Hne) as Hn.
  rewrite map_map.
  rewrite (map_ext _ (fun x => np.Fin (Rsqr (x - mean (r :: rs))))).
  2:{ intros x. cbv beta zeta. unfold np.sub, np.mul.
      rewrite sum_fin, count_fin, div_fin by lra.
      f_equal. unfold mean, Rsqr. ring. }
  rewrite <- (map_map (fun x => Rsqr (x - mean (r :: rs))) np.Fin).
  rewrite sum_fin, count_fin, div_fin by lra.
  unfold np.sqrt. rewrite is_neg_false; [reflexivity|].
  apply Rmult_le_pos; [apply squares_nonneg | left; now apply Rinv_0_lt_compat].
Qed.

(** ** The metrics calculator *)

Lemma sqrt_252 : np.sqrt (np.Fin 252) = np.Fin (sqrt 252).
Proof.
  unfold np.sqrt. now rewrite is_neg_false by lra.
Qed.

(** What [get_metrics] puts on the page for a series of finite returns. *)
Lemma get_metrics_run (data_copy : pd.DataFrame) (rs : list R) (c : st.Cache) :
  pd.numeric "% Change" data_copy = Ok (map np.Fin rs) ->
  rs <> [] ->
  get_metrics data_copy c =
    ([st.Metric "Annual Return" (np.Fin (annualReturnPct rs)) 4;
      st.Metric "Standard Deviation"
        (np.Fin (populationStdDev rs * sqrt 252)) 4;
      st.Metric "Risk Adjusted Return"
        (np.div (np.Fin (annualReturnPct rs))
                (np.Fin (populationStdDev rs * sqrt 252 * 100))) 4],
     Ok tt, c).
Proof.
  intros Hcol Hne.
  unfold get_metrics, st.bind, st.lift, st.metric, st.emit.
  rewrite Hcol, (mean_fin rs Hne), (std_fin rs Hne), sqrt_252.
  reflexivity.
Qed.

Lemma numeric_return_series (rs : list R) :
  pd.numeric "% Change" (return_series rs) = Ok (map np.Fin rs).
Proof.
  unfold pd.numeric, pd.getitem, return_series. simpl.
  rewrite map_map. simpl.
  generalize 1%nat. induction rs as [|r rs IH]; intros k; simpl; [reflexivity|].
  now rewrite IH.
Qed.

Lemma stdDevPct_eq (rs : list R) :
  stdDevPct rs = populationStdDev rs * sqrt 252 * 100.
Proof. reflexivity. Qed.

Lemma sqrt_252_pos : 0 < sqrt 252.
Proof. apply sqrt_lt_R0. lra. Qed.


Lemma example_deviation_pos : 0 < populationStdDev example_returns.
Proof.
  unfold populationStdDev. apply sqrt_lt_R0.
  unfold mean, example_returns, Rsqr. simpl. lra.
Qed.

Lemma single_deviation_zero : populationStdDev single_return = 0.
Proof.
  unfold populationStdDev, mean, single_return, Rsqr. simpl.
  replace ((1 / 100 - (1 / 100 + 0) / 1) * (1 / 100 - (1 / 100 + 0) / 1) + 0)
    with 0 by lra.
  replace (0 / 1) with 0 by lra. apply sqrt_0.
Qed.

Lemma single_mean : mean single_return = 1 / 100.
Proof.
  unfold mean, single_return. simpl. lra.
Qed.




(** C3 at the worked example.  The annual return shown is
    mean x 252 x 100; the standard deviation shown is
    populationStdDev x sqrt(252), without the x 100 of stdDevPct. *)
Theorem standard_deviation_shown_as_fraction :
  metric_value "Annual Return"
    (st.log (get_metrics (return_series example_returns)) [])
  = Some (np.Fin (annualReturnPct example_returns)) /\
  metric_value "Standard Deviation"
    (st.log (get_metrics (return_series example_returns)) [])
  = Some (np.Fin (populationStdDev example_returns * sqrt 252)) /\
  np.Fin (populationStdDev example_returns * sqrt 252)
  <> np.Fin (stdDevPct example_returns).
Proof.
  unfold st.log.
  rewrite (get_metrics_run _ example_returns []
             (numeric_return_series example_returns)) by discriminate.
  repeat split.
  intros H. injection H as H. rewrite stdDevPct_eq in H.
  pose proof example_deviation_pos. pose proof sqrt_252_pos.
  nra.
Qed.

(** The quotient by a deviation that is zero, in the exact arithmetic of
    the model. *)
Lemma quotient_by_zero_deviation
  (data_copy : pd.DataFrame) (rs : list R) (c : st.Cache) :
  pd.numeric "% Change" data_copy = Ok (map np.Fin rs) ->
  rs <> [] ->
  populationStdDev rs = 0 ->
  st.outcome (get_metrics data_copy) c = Ok tt /\
  (mean rs = 0 ->
   metric_value "Risk Adjusted Return" (st.log (get_metrics data_copy) c)
     = Some np.NaN) /\
  (0 < mean rs ->
   metric_value "Risk Adjusted Return" (st.log (get_metrics data_copy) c)
     = Some (np.Inf false)) /\
  (mean rs < 0 ->
   metric_value "Risk Adjusted Return" (st.log (get_metrics data_copy) c)
     = Some (np.Inf true)).
Proof.
  intros Hcol Hne Hsd. unfold st.outcome, st.log.
  rewrite (get_metrics_run data_copy rs c Hcol Hne).
  cbn [fst snd metric_value String.eqb Ascii.eqb Bool.eqb].
  rewrite Hsd.
  replace (0 * sqrt 252 * 100) with 0 by lra.
  unfold np.div. rewrite is_zero_true. unfold annualReturnPct.
  split; [reflexivity|]. repeat split; intros Hm.
  - rewrite Hm. replace (0 * 252 * 100) with 0 by lra.
    now rewrite is_zero_true.
  - rewrite is_zero_false, is_neg_false by nra. reflexivity.
  - rewrite is_zero_false, is_neg_true by nra. reflexivity.
Qed.

Lemma total_zero (rs : list R) : (forall x, In x rs -> x = 0) -> total rs = 0.
Proof.
  induction rs as [|r rs IH]; intros H; [reflexivity|].
  cbn [total fold_right]. rewrite (H r (or_introl eq_refl)).
  fold (total rs). rewrite IH; [lra|]. intros x Hx. apply H. now right.
Qed.

Lemma single_return_statistics (r : R) :
  mean [r] = r /\ populationStdDev [r] = 0.
Proof.
  assert (Hmean : mean [r] = r) by (unfold mean; simpl; lra).
  split; [exact Hmean|].
  unfold populationStdDev. rewrite Hmean. simpl.
  rewrite <- sqrt_0 at 2. f_equal. unfold Rsqr. nra.
Qed.

Lemma zero_returns_statistics (rs : list R) :
  (forall x, In x rs -> x = 0) -> mean rs = 0 /\ populationStdDev rs = 0.
Proof.
  intros Hzero.
  assert (Hmean : mean rs = 0).
  { unfold mean. rewrite (total_zero rs Hzero). unfold Rdiv. apply Rmult_0_l. }
  split; [exact Hmean|].
  unfold populationStdDev. rewrite Hmean, total_zero.
  - unfold Rdiv. rewrite Rmult_0_l. apply sqrt_0.
  - intros y Hy. apply in_map_iff in Hy. destruct Hy as [x [<- Hx]].
    rewrite (Hzero x Hx). unfold Rsqr. lra.
Qed.

(** C7 (as amended).  For a series that is a single finite return, or
    whose returns are all zero, the deviation [get_metrics] computes is
    exactly zero; it raises nothing and signals nothing, and the
    risk-adjusted return it shows is the float64 quotient by zero: NaN
    when the returns are zero, otherwise, for a single return, the
    infinity of the sign of that return. *)
Theorem risk_adjusted_return_degenerate
  (data_copy : pd.DataFrame) (rs : list R) (c : st.Cache) :
  pd.numeric "% Change" data_copy = Ok (map np.Fin rs) ->
  rs <> [] ->
  (exists r, rs = [r]) \/ (forall x, In x rs -> x = 0) ->
  st.outcome (get_metrics data_copy) c = Ok tt /\
  (forall e, In e (st.log (get_metrics data_copy) c) -> signal_of e = None) /\
  metric_value "Standard Deviation" (st.log (get_metrics data_copy) c)
  = Some (np.Fin 0) /\
  ((forall x, In x rs -> x = 0) ->
   metric_value "Risk Adjusted Return" (st.log (get_metrics data_copy) c)
   = Some np.NaN) /\
  (forall r, rs = [r] -> 0 < r ->
   metric_value "Risk Adjusted Return" (st.log (get_metrics data_copy) c)
   = Some (np.Inf false)) /\
  (forall r, rs = [r] -> r < 0 ->
   metric_value "Risk Adjusted Return" (st.log (get_metrics data_copy) c)
   = Some (np.Inf true)).
Proof.
  intros Hcol Hne Hcase.
  assert (Hsd : populationStdDev rs = 0).
  { destruct Hcase as [[r ->] | Hzero].
    - apply single_return_statistics.
    - now apply zero_returns_statistics. }
  destruct (quotient_by_zero_deviation data_copy rs c Hcol Hne Hsd)
    as [Hout [Hnan [Hpos Hneg]]].
  split; [exact Hout|]. split; [|split; [|split; [|split]]].
  - unfold st.log. rewrite (get_metrics_run data_copy rs c Hcol Hne).
    cbn [fst]. intros e [<- | [<- | [<- | []]]]; reflexivity.
  - unfold st.log. rewrite (get_metrics_run data_copy rs c Hcol Hne).
    cbn [fst metric_value String.eqb Ascii.eqb Bool.eqb].
    rewrite Hsd. do 2 f_equal. lra.
  - intros Hzero. apply Hnan. now apply zero_returns_statistics.
  - intros r -> Hr. apply Hpos.
    now rewrite (proj1 (single_return_statistics r)).
  - intros r -> Hr. apply Hneg.
    now rewrite (proj1 (single_return_statistics r)).
Qed.

Lemma risk_adjusted_return_degenerate_single :
  st.outcome (get_metrics (return_series single_return)) [] = Ok tt /\
  metric_value "Standard Deviation"
    (st.log (get_metrics (return_series single_return)) [])
  = Some (np.Fin 0) /\
  metric_value "Risk Adjusted Return"
    (st.log (get_metrics (return_series single_return)) [])
  = Some (np.Inf false).
Proof.
  assert (Hne : single_return <> []) by discriminate.
  assert (Hcase : (exists r, single_return = [r]) \/
                  (forall x, In x single_return -> x = 0)).
  { left. now exists (1 / 100). }
  destruct (risk_adjusted_return_degenerate
              (return_series single_return) single_return []
              (numeric_return_series single_return) Hne Hcase)
    as [Hout [_ [Hdev [_ [Hpos _]]]]].
  split; [exact Hout|]. split; [exact Hdev|].
  apply (Hpos (1 / 100)); [reflexivity | lra].
Defined.

(** C7 as stated fails: for the single return 0.01, whose deviation is
    zero, the page shows three metrics and nothing else, and the
    risk-adjusted return is +infinity, which is neither NaN nor an error
    signal. *)
Lemma risk_adjusted_return_infinite :
  populationStdDev single_return = 0 /\
  st.outcome (get_metrics (return_series single_return)) [] = Ok tt /\
  metric_value "Risk Adjusted Return"
    (st.log (get_metrics (return_series single_return)) [])
  = Some (np.Inf false) /\
  np.isnan (np.Inf false) = false /\
  (forall e, In e (st.log (get_metrics (return_series single_return)) []) ->
             is_metric e = true /\ signal_of e = None).
Proof.
  split; [apply single_deviation_zero|].
  unfold st.outcome, st.log.
  rewrite (get_metrics_run _ single_return []
             (numeric_return_series single_return)) by discriminate.
  cbn [fst snd metric_value String.eqb Ascii.eqb Bool.eqb].
  split; [reflexivity|]. split.
  - rewrite single_deviation_zero.
    replace (0 * sqrt 252 * 100) with 0 by lra.
    unfold np.div. rewrite is_zero_true. unfold annualReturnPct.
    rewrite single_mean.
    rewrite is_zero_false, is_neg_false by lra. reflexivity.
  - split; [reflexivity|].
    intros e [<- | [<- | [<- | []]]]; split; reflexivity.
Qed.

(** ** The returns table of [current] *)

Lemma rmap_length {A B} (f : A -> result B) (l : list A) (bs : list B) :
  rmap f l = Ok bs -> List.length bs = List.length l.
Proof.
  revert bs. induction l as [|a l IH]; simpl; intros bs H.
  - injection H as <-. reflexivity.
  - destruct (f a) as [b|e]; simpl in H; [|discriminate].
    destruct (rmap f l) as [bs'|e]; simpl in H; [|discriminate].
    injection H as <-. simpl. f_equal. now apply IH.
Qed.

Lemma numeric_length (name : string) (df : pd.DataFrame) (xs : list np.float64) :
  pd.numeric name df = Ok xs -> List.length xs = List.length (pd.rows df).
Proof.
  unfold pd.numeric, pd.getitem.
  destruct (pd.position name (pd.columns df)) as [k|]; simpl; [|discriminate].
  intros H. apply rmap_length in H. now rewrite length_map in H.
Qed.

Lemma position_absent (name : string) (cols : list pd.cell) :
  existsb (pd.is_label name) cols = false -> pd.position name cols = None.
Proof.
  induction cols as [|c cols IH]; simpl; [reflexivity|].
  destruct (pd.is_label name c); simpl; [discriminate|].
  intros H. now rewrite IH.
Qed.

Lemma position_present (name : string) (cols : list pd.cell) :
  existsb (pd.is_label name) cols = true ->
  exists k, pd.position name cols = Some k.
Proof.
  induction cols as [|c cols IH]; simpl; [discriminate|].
  destruct (pd.is_label name c); simpl; [now exists O|].
  intros H. destruct (IH H) as [k ->]. now exists (S k).
Qed.

Lemma pct_change_tail (pt : list R) (p0 : R) :
  p0 <> 0 -> (forall p, In p pt -> p <> 0) ->
  map (fun pq => np.sub (np.div (fst pq) (snd pq)) (np.Fin 1))
      (combine (map np.Fin pt) (removelast (np.Fin p0 :: map np.Fin pt)))
  = map np.Fin (percentChange (p0 :: pt)).
Proof.
  revert p0. induction pt as [|p1 pt IH]; intros p0 H0 Hall; [reflexivity|].
  change (removelast (np.Fin p0 :: map np.Fin (p1 :: pt)))
    with (np.Fin p0 :: removelast (np.Fin p1 :: map np.Fin pt)).
  change (percentChange (p0 :: p1 :: pt))
    with ((p1 / p0 - 1) :: percentChange (p1 :: pt)).
  change (map np.Fin (p1 :: pt)) with (np.Fin p1 :: map np.Fin pt).
  cbn [map combine fst snd].
  rewrite div_fin by assumption.
  rewrite IH; [reflexivity | apply Hall; now left |].
  intros p Hp. apply Hall. now right.
Qed.

Lemma pct_change_fin (p0 : R) (pt : list R) :
  (forall p, In p (p0 :: pt) -> p <> 0) ->
  pct_change (map np.Fin (p0 :: pt))
  = np.NaN :: map np.Fin (percentChange (p0 :: pt)).
Proof.
  intros Hall. unfold pct_change, pd.shift1.
  change (map np.Fin (p0 :: pt)) with (np.Fin p0 :: map np.Fin pt).
  cbn [combine map fst snd np.div np.sub]. f_equal.
  apply pct_change_tail.
  - apply Hall. now left.
  - intros p Hp. apply Hall. now right.
Qed.

Lemma percentChange_length (p0 : R) (pt : list R) :
  List.length (percentChange (p0 :: pt)) = List.length pt.
Proof.
  revert p0. induction pt as [|p1 pt IH]; intros p0; [reflexivity|].
  change (percentChange (p0 :: p1 :: pt))
    with ((p1 / p0 - 1) :: percentChange (p1 :: pt)).
  cbn [List.length]. now rewrite IH.
Qed.

Lemma complete_extended (r : pd.cell * list pd.cell) (c : pd.cell) :
  pd.row_complete (extended (r, c))
  = pd.row_complete r && negb (pd.isna c).
Proof.
  unfold pd.row_complete, extended. simpl.
  rewrite forallb_app. simpl. now rewrite andb_true_r.
Qed.

Lemma dropna_keeps_finite (rws : list (pd.cell * list pd.cell)) (xs : list R) :
  (forall r, In r rws -> pd.row_complete r = true) ->
  filter pd.row_complete
    (map extended (combine rws (map pd.Num (map np.Fin xs))))
  = map extended (combine rws (map pd.Num (map np.Fin xs))).
Proof.
  revert xs. induction rws as [|r rws IH]; intros xs Hall; [reflexivity|].
  destruct xs as [|x xs]; [reflexivity|].
  cbn [map combine filter].
  rewrite complete_extended, (Hall r (or_introl eq_refl)). simpl.
  f_equal. apply IH. intros r' Hr'. apply Hall. now right.
Qed.

Lemma returns_row (rt : list (pd.cell * list pd.cell)) (pt : list R) (p0 : R)
  (j : nat) (label : pd.cell) (cells : list pd.cell) :
  List.length rt = List.length pt ->
  nth_error rt j = Some (label, cells) ->
  nth_error
    (map extended
       (combine rt (map pd.Num (map np.Fin (percentChange (p0 :: pt)))))) j
  = Some (label,
          cells ++ [pd.Num (np.Fin (nth (S j) (p0 :: pt) 0
                                    / nth j (p0 :: pt) 0 - 1))]).
Proof.
  revert pt p0 j. induction rt as [|r rt IH]; intros pt p0 j Hlen Hj.
  - destruct j; discriminate.
  - destruct pt as [|p1 pt]; [discriminate|].
    change (percentChange (p0 :: p1 :: pt))
      with ((p1 / p0 - 1) :: percentChange (p1 :: pt)).
    destruct j as [|j].
    + simpl in Hj. injection Hj as ->. reflexivity.
    + cbn [map combine nth_error]. simpl in Hj.
      rewrite (IH pt p1 j); [reflexivity | now injection Hlen | assumption].
Qed.

(** The copy of the table, row by row, when no cell of the table is
    missing and no price is zero. *)
Lemma pct_change_frame_rows (data : pd.DataFrame)
  (r0 : pd.cell * list pd.cell) (rt : list (pd.cell * list pd.cell))
  (p0 : R) (pt : list R) :
  pd.rows data = r0 :: rt ->
  pd.numeric (price_column data) data = Ok (map np.Fin (p0 :: pt)) ->
  (forall p, In p (p0 :: pt) -> p <> 0) ->
  (forall r, In r (pd.rows data) -> pd.row_complete r = true) ->
  pd.has_column "% Change" data = false ->
  pct_change_frame data
  = Ok (pd.mkDF (pd.index_name data) (pd.columns data ++ [pd.Str "% Change"])
          (map extended
             (combine rt (map pd.Num (map np.Fin (percentChange (p0 :: pt))))))).
Proof.
  intros Hrows Hnum Hnz Hcomplete Hfresh.
  unfold pct_change_frame. rewrite Hnum. cbn [rbind].
  rewrite (pct_change_fin p0 pt Hnz).
  unfold pd.setitem. rewrite (position_absent _ _ Hfresh).
  unfold pd.dropna. cbn [pd.index_name pd.columns pd.rows].
  change (fun rv : pd.cell * list pd.cell * pd.cell =>
            (fst (fst rv), snd (fst rv) ++ [snd rv])) with extended.
  rewrite Hrows. cbn [map combine filter]. rewrite complete_extended. cbn [pd.isna negb].
  rewrite andb_false_r. f_equal. f_equal.
  apply dropna_keeps_finite.
  intros r Hr. apply Hcomplete. rewrite Hrows. now right.
Qed.

(** C1 (as amended).  For a non-empty price table in which no field of
    any bar is missing and the selected price ("Adj Close" when the table
    has that column, else "Close") is non-zero at every index, the
    returns table has exactly n-1 rows: for every index i >= 1 its row
    i-1 is row i of the price table followed by
    price[i]/price[i-1] - 1; the row of index 0 is dropped. *)
Theorem returns_rows (data : pd.DataFrame) (prices : list R) :
  pd.rows data <> [] ->
  pd.numeric (price_column data) data = Ok (map np.Fin prices) ->
  (forall p, In p prices -> p <> 0) ->
  (forall r, In r (pd.rows data) -> pd.row_complete r = true) ->
  pd.has_column "% Change" data = false ->
  exists out,
    pct_change_frame data = Ok out /\
    List.length (pd.rows data) = List.length prices /\
    List.length (pd.rows out) = (List.length prices - 1)%nat /\
    forall i label cells,
      (1 <= i)%nat ->
      nth_error (pd.rows data) i = Some (label, cells) ->
      nth_error (pd.rows out) (i - 1)
      = Some (label,
              cells ++ [pd.Num (np.Fin (nth i prices 0
                                        / nth (i - 1) prices 0 - 1))]).
Proof.
  intros Hne Hnum Hnz Hcomplete Hfresh.
  pose proof (numeric_length _ _ _ Hnum) as Hlen.
  rewrite length_map in Hlen.
  destruct (pd.rows data) as [|r0 rt] eqn:Hrows; [congruence|].
  destruct prices as [|p0 pt]; [discriminate|].
  rewrite <- Hrows in Hcomplete.
  eexists. split.
  { exact (pct_change_frame_rows data r0 rt p0 pt Hrows Hnum Hnz
             Hcomplete Hfresh). }
  cbn [pd.rows]. injection Hlen as Hlen.
  split; [simpl; now rewrite Hlen|]. split.
  - rewrite length_map, length_combine, !length_map, percentChange_length.
    simpl. lia.
  - intros i label cells Hi Hrow.
    destruct i as [|j]; [lia|].
    replace (S j - 1)%nat with j by lia.
    apply returns_row; [now symmetry | exact Hrow].
Qed.

Lemma returns_rows_acme :
  exists out,
    pct_change_frame acme_bars = Ok out /\
    List.length (pd.rows acme_bars) = 3%nat /\
    List.length (pd.rows out) = 2%nat /\
    nth_error (pd.rows out) 0
    = Some (pd.Int 1,
            [pd.Stamp 2; price 100; price 110;
             pd.Num (np.Fin (110 / 100 - 1))]) /\
    nth_error (pd.rows out) 1
    = Some (pd.Int 2,
            [pd.Stamp 3; price 110; price 99;
             pd.Num (np.Fin (99 / 110 - 1))]).
Proof.
  destruct (returns_rows acme_bars [100; 110; 99]) as [out [Hout [Hn [Hm Hrow]]]].
  - discriminate.
  - reflexivity.
  - intros p [<- | [<- | [<- | []]]]; lra.
  - intros r [<- | [<- | [<- | []]]]; reflexivity.
  - reflexivity.
  - exists out. split; [exact Hout|]. split; [exact Hn|]. split; [exact Hm|].
    split.
    + exact (Hrow 1%nat _ _ (le_n 1) eq_refl).
    + exact (Hrow 2%nat _ _ (le_S _ _ (le_n 1)) eq_refl).
Defined.

(** C1 as stated fails: in [gap_bars] the close is there and non-zero on
    both days, yet the returns table has no row, not 2 - 1: the second
    day lacks its opening price and [dropna] drops it as well. *)
Lemma returns_rows_gap :
  pd.numeric (price_column gap_bars) gap_bars = Ok (map np.Fin [100; 110]) /\
  (forall p, In p [100; 110] -> p <> 0) /\
  exists out,
    pct_change_frame gap_bars = Ok out /\
    pd.rows out = [] /\
    List.length (pd.rows out) <> (List.length [100; 110] - 1)%nat.
Proof.
  split; [reflexivity|]. split.
  - intros p [<- | [<- | []]]; lra.
  - eexists. split; [reflexivity|]. split; [reflexivity | discriminate].
Qed.

(** ** The views on an empty or short price table *)

Lemma truthy_nonempty (s : string) : truthy s = true <-> s <> "".
Proof.
  destruct s; simpl; split; intros H; congruence.
Qed.

Lemma reset_index_rows (raw data : pd.DataFrame) :
  pd.reset_index raw = Ok data ->
  List.length (pd.rows data) = List.length (pd.rows raw) /\
  pd.columns data = pd.Str (pd.index_label raw) :: pd.columns raw.
Proof.
  unfold pd.reset_index.
  destruct (pd.has_column (pd.index_label raw) raw); [discriminate|].
  intros H. injection H as <-. cbn [pd.rows pd.columns].
  rewrite length_map, length_combine, length_seq, Nat.min_id. now split.
Qed.

Lemma load_data_run (W : World) (ticker : string) (n_years : Z) (c : st.Cache) :
  load_data W ticker n_years c
  = ([st.Call (st.YfDownload ticker (start_date W n_years) (today_date W))],
     pd.reset_index (download W ticker n_years), c).
Proof.
  unfold load_data, st.bind, st.call, st.emit, st.lift. cbn [app].
  now destruct (pd.reset_index (download W ticker n_years)).
Qed.

Lemma empty_no_rows (df : pd.DataFrame) : pd.rows df = [] -> pd.empty df = true.
Proof.
  unfold pd.empty. now intros ->.
Qed.

(** Both price views on an empty download. *)
Lemma views_on_no_bars (W : World) (ticker : string) (n_years : Z)
  (c : st.Cache) (data : pd.DataFrame) :
  ticker <> "" ->
  pd.rows (download W ticker n_years) = [] ->
  pd.reset_index (download W ticker n_years) = Ok data ->
  let request :=
    st.Call (st.YfDownload ticker (start_date W n_years) (today_date W)) in
  current W ticker n_years c = ([request; st.Error "Invalid Ticker"], Ok tt, c) /\
  forecast W ticker n_years c = ([request; st.Error "Invalid Ticker"], Ok tt, c).
Proof.
  intros Hticker Hrows Hreset request.
  apply truthy_nonempty in Hticker.
  assert (Hempty : pd.empty data = true).
  { apply empty_no_rows. apply reset_index_rows in Hreset.
    destruct Hreset as [Hlen _]. rewrite Hrows in Hlen.
    now destruct (pd.rows data). }
  unfold current, forecast, st.bind.
  rewrite Hticker. cbn [negb]. rewrite load_data_run, Hreset, Hempty.
  now split.
Qed.

(** C5.  When the market data source returns no bar for the ticker, the
    overview and the forecast view do one thing after the download: they
    show the invalid-ticker error (EmptyInputError).  Nothing is
    transformed, no metric is computed and nothing is handed to the
    Forecast Adapter. *)
Theorem empty_input_error (W : World) (ticker : string) (n_years : Z)
  (c : st.Cache) (data : pd.DataFrame) :
  ticker <> "" ->
  pd.rows (download W ticker n_years) = [] ->
  pd.reset_index (download W ticker n_years) = Ok data ->
  let request :=
    st.Call (st.YfDownload ticker (start_date W n_years) (today_date W)) in
  current W ticker n_years c = ([request; st.Error "Invalid Ticker"], Ok tt, c) /\
  forecast W ticker n_years c = ([request; st.Error "Invalid Ticker"], Ok tt, c) /\
  signals EmptyInputError [request; st.Error "Invalid Ticker"] /\
  no_metrics [request; st.Error "Invalid Ticker"] /\
  no_fit [request; st.Error "Invalid Ticker"].
Proof.
  intros Hticker Hrows Hreset request.
  destruct (views_on_no_bars W ticker n_years c data Hticker Hrows Hreset)
    as [Hcurrent Hforecast].
  repeat split; try assumption.
  exists (st.Error "Invalid Ticker"). split; [now right; left | reflexivity].
Qed.

Lemma empty_input_error_acme :
  current (world_of no_bars) "ACME" 1 []
  = ([st.Call (st.YfDownload "ACME" (-365) 0); st.Error "Invalid Ticker"],
     Ok tt, []) /\
  forecast (world_of no_bars) "ACME" 1 []
  = ([st.Call (st.YfDownload "ACME" (-365) 0); st.Error "Invalid Ticker"],
     Ok tt, []).
Proof.
  destruct (empty_input_error (world_of no_bars) "ACME" 1 []
              (pd.mkDF None bars_columns []))
    as [Hcurrent [Hforecast _]].
  - discriminate.
  - reflexivity.
  - reflexivity.
  - split; [exact Hcurrent | exact Hforecast].
Defined.

Lemma pct_change_single (a : np.float64) : pct_change [a] = [np.NaN].
Proof.
  unfold pct_change. simpl. now destruct a.
Qed.

(** With fewer than two bars no percent change is defined: the returns
    table has no row. *)
Lemma short_table_no_returns (data out : pd.DataFrame) :
  (List.length (pd.rows data) < 2)%nat ->
  pd.has_column "% Change" data = false ->
  pct_change_frame data = Ok out ->
  pd.rows out = [].
Proof.
  intros Hshort Hfresh. unfold pct_change_frame.
  destruct (pd.numeric (price_column data) data) as [xs|e] eqn:Hnum;
    [|discriminate].
  apply numeric_length in Hnum. cbn [rbind].
  unfold pd.setitem. rewrite (position_absent _ _ Hfresh).
  intros H. injection H as <-. unfold pd.dropna. cbn [pd.rows].
  destruct (pd.rows data) as [|r0 [|r1 rt]]; [reflexivity | | simpl in Hshort; lia].
  destruct xs as [|a [|b xs]]; try discriminate.
  rewrite pct_change_single.
  change (fun rv : pd.cell * list pd.cell * pd.cell =>
            (fst (fst rv), snd (fst rv) ++ [snd rv])) with extended.
  cbn [map combine filter]. rewrite complete_extended. cbn [pd.isna negb].
  now rewrite andb_false_r.
Qed.

(** C4 (as amended).  For every price table with fewer than two rows the
    returns table has no row; when the table has no row at all the
    overview shows the invalid-ticker error (EmptyInputError) right
    after the download and no MetricsSummary. *)
Theorem short_table_returns (W : World) (ticker : string) (n_years : Z)
  (c : st.Cache) (data : pd.DataFrame) :
  ticker <> "" ->
  pd.reset_index (download W ticker n_years) = Ok data ->
  (List.length (pd.rows data) < 2)%nat ->
  pd.has_column "% Change" data = false ->
  (forall out, pct_change_frame data = Ok out -> pd.rows out = []) /\
  (pd.rows data = [] ->
   signals EmptyInputError (st.log (current W ticker n_years) c) /\
   ~ signals EmptyAfterCleaningError (st.log (current W ticker n_years) c) /\
   no_metrics (st.log (current W ticker n_years) c)).
Proof.
  intros Hticker Hreset Hshort Hfresh. split.
  - intros out. now apply short_table_no_returns.
  - intros Hrows.
    assert (Hraw : pd.rows (download W ticker n_years) = []).
    { apply reset_index_rows in Hreset. destruct Hreset as [Hlen _].
      rewrite Hrows in Hlen. now destruct (pd.rows (download W ticker n_years)). }
    destruct (views_on_no_bars W ticker n_years c data Hticker Hraw Hreset)
      as [Hcurrent _].
    unfold st.log. rewrite Hcurrent. cbn [fst].
    split; [|split; [|reflexivity]].
    + exists (st.Error "Invalid Ticker"). split; [now right; left | reflexivity].
    + intros [e [[<- | [<- | []]] He]]; discriminate.
Qed.

Lemma short_table_returns_one_bar :
  exists out,
    pct_change_frame
      (pd.mkDF None bars_columns [(pd.Int 0, [pd.Stamp 1; price 100; price 100])])
    = Ok out /\
    pd.rows out = [].
Proof.
  eexists. split; [reflexivity|].
  refine (proj1 (short_table_returns (world_of one_bar) "ACME" 1 []
                   (pd.mkDF None bars_columns
                      [(pd.Int 0, [pd.Stamp 1; price 100; price 100])])
                   _ _ _ _) _ eq_refl).
  - discriminate.
  - reflexivity.
  - simpl. lia.
  - reflexivity.
Defined.

(** C4 as stated fails.  On the table without rows the overview signals
    EmptyInputError, not EmptyAfterCleaningError. *)
Lemma short_table_no_cleaning_error :
  (List.length (pd.rows no_bars) < 2)%nat /\
  signals EmptyInputError (st.log (current (world_of no_bars) "ACME" 1) []) /\
  ~ signals EmptyAfterCleaningError
      (st.log (current (world_of no_bars) "ACME" 1) []).
Proof.
  split; [simpl; lia|]. split.
  - exists (st.Error "Invalid Ticker"). split; [now right; left | reflexivity].
  - intros [e [[<- | [<- | []]] He]]; discriminate.
Qed.

(** On a table of one bar the overview signals nothing: it shows the
    empty returns table and three metrics that are NaN. *)
Lemma current_one_bar :
  let page := st.log (current (world_of one_bar) "ACME" 1) [] in
  (forall s, ~ signals s page) /\
  In (st.WriteOut [st.Frame (pd.mkDF None (bars_columns ++ [pd.Str "% Change"]) [])])
     page /\
  metric_value "Annual Return" page = Some np.NaN /\
  metric_value "Standard Deviation" page = Some np.NaN /\
  metric_value "Risk Adjusted Return" page = Some np.NaN.
Proof.
  split.
  - intros s [e [He Hs]]. simpl in He.
    repeat (destruct He as [<- | He]; [discriminate|]). exact He.
  - split; [simpl; tauto|]. repeat split.
Qed.

(** ** The forecast input *)

Lemma in_combine_map {A B} (f : A -> B) (l : list A) (a : A) (b : B) :
  In (a, b) (combine l (map f l)) -> In a l /\ b = f a.
Proof.
  induction l as [|x l IH]; simpl; [tauto|].
  intros [H | H].
  - injection H as <- <-. split; [now left | reflexivity].
  - destruct (IH H) as [Hin Hb]. split; [now right | exact Hb].
Qed.

Lemma to_numeric1_number (parse : string -> option np.float64) (c : pd.cell) :
  pd.isna (pd.to_numeric1 parse c) = false ->
  is_number (pd.to_numeric1 parse c) = true.
Proof.
  destruct c as [x | z | s | t |]; simpl; try discriminate; try reflexivity.
  - now destruct x.
  - destruct (parse s) as [x|]; simpl; [now destruct x | discriminate].
Qed.

(** The cleaning of a (ds, y) frame never raises, keeps the two columns
    and leaves only rows with a timestamp and a number. *)
Lemma forecast_clean_ok (W : World) (df_train : pd.DataFrame) :
  pd.columns df_train = [pd.Str "ds"; pd.Str "y"] ->
  (forall r, In r (pd.rows df_train) -> exists d v, snd r = [d; v]) ->
  exists cleaned,
    forecast_clean W df_train = Ok cleaned /\
    pd.columns cleaned = [pd.Str "ds"; pd.Str "y"] /\
    forall r, In r (pd.rows cleaned) -> clean_row r.
Proof.
  destruct df_train as [iname cols rws]. cbn [pd.columns pd.rows].
  intros -> Hshape.
  unfold forecast_clean, pd.dropna_subset, pd.positions, pd.getitem, pd.setitem.
  cbn. eexists. split; [reflexivity|]. split; [reflexivity|].
  cbn [pd.rows]. intros r Hr.
  apply filter_In in Hr. destruct Hr as [Hr Hy].
  apply in_map_iff in Hr. destruct Hr as [[r' v'] [<- Hin]].
  unfold pd.to_numeric in Hin. rewrite map_map in Hin.
  apply in_combine_map in Hin. destruct Hin as [Hin ->].
  apply filter_In in Hin. destruct Hin as [Hin Hds].
  destruct (Hshape r' Hin) as [d [v Hr']].
  cbn [fst snd] in *. rewrite Hr' in *. cbn in Hds, Hy |- *.
  exists d, (pd.to_numeric1 (parse_float W) v).
  split; [reflexivity|].
  rewrite andb_true_r in Hy. apply andb_prop in Hds. destruct Hds as [Hd _].
  split.
  - now destruct (pd.isna d).
  - apply to_numeric1_number. now destruct (pd.isna (pd.to_numeric1 (parse_float W) v)).
Qed.

Lemma forecast_price_col_cases (data : pd.DataFrame) (price_col : string) :
  forecast_price_col data = Some price_col ->
  pd.has_column price_col data = true /\
  (price_col = "Close" \/ price_col = "Adj Close").
Proof.
  unfold forecast_price_col.
  destruct (pd.has_column "Close" data) eqn:Hclose.
  - intros H. injection H as <-. split; [exact Hclose | now left].
  - destruct (pd.has_column "Adj Close" data) eqn:Hadj; [|discriminate].
    intros H. injection H as <-. split; [exact Hadj | now right].
Qed.

(** The selection and renaming never raise when both columns are there:
    the result has the columns (ds, y) and two cells per row. *)
Lemma forecast_columns_ok (data : pd.DataFrame) (price_col : string) :
  pd.has_column "Date" data = true ->
  forecast_price_col data = Some price_col ->
  exists df_train,
    forecast_columns price_col data = Ok df_train /\
    pd.columns df_train = [pd.Str "ds"; pd.Str "y"] /\
    forall r, In r (pd.rows df_train) -> exists d v, snd r = [d; v].
Proof.
  intros Hdate Hpc.
  destruct (forecast_price_col_cases data price_col Hpc) as [Hprice Hname].
  destruct (position_present _ _ Hdate) as [kd Hkd].
  destruct (position_present _ _ Hprice) as [kp Hkp].
  unfold forecast_columns, pd.select, pd.positions. cbn [rmap rbind].
  rewrite Hkd, Hkp. cbn [rbind]. eexists. split; [reflexivity|]. split.
  - destruct Hname as [-> | ->]; reflexivity.
  - cbn [pd.rename pd.rows]. intros r Hr.
    apply in_map_iff in Hr. destruct Hr as [r' [<- _]].
    cbn [snd map]. eauto.
Qed.

Lemma train_model_run (W : World) (n_years : Z) (df_train : pd.DataFrame)
  (c : st.Cache) :
  train_model W n_years df_train c
  = ([st.Call (st.ProphetFit df_train (n_years * 365))],
     prophet W df_train (n_years * 365), c).
Proof.
  unfold train_model, st.bind, st.call, st.emit, st.lift. cbn [app].
  now destruct (prophet W df_train (n_years * 365)).
Qed.

(** C6.  For a non-empty price table with its Date and price columns,
    the forecast input is computed without an exception and none of its
    rows has a missing timestamp or a value that is missing or not a
    number.  If it has no row the view shows the empty-after-cleaning
    error and hands nothing to the Forecast Adapter; otherwise the
    input is what the adapter is given. *)
Theorem forecast_input_clean (W : World) (ticker : string) (n_years : Z)
  (c : st.Cache) (data : pd.DataFrame) (price_col : string) :
  ticker <> "" ->
  pd.reset_index (download W ticker n_years) = Ok data ->
  pd.empty data = false ->
  pd.has_column "Date" data = true ->
  forecast_price_col data = Some price_col ->
  exists cleaned,
    rbind (forecast_columns price_col data) (forecast_clean W) = Ok cleaned /\
    (forall r, In r (pd.rows cleaned) -> clean_row r) /\
    (pd.rows cleaned = [] ->
     signals EmptyAfterCleaningError (st.log (forecast W ticker n_years) c) /\
     no_fit (st.log (forecast W ticker n_years) c)) /\
    (pd.rows cleaned <> [] ->
     In (st.Call (st.ProphetFit cleaned (n_years * 365)))
        (st.log (forecast W ticker n_years) c) /\
     forall e, In e (st.log (forecast W ticker n_years) c) ->
               is_fit e = true ->
               e = st.Call (st.ProphetFit cleaned (n_years * 365))).
Proof.
  intros Hticker Hreset Hempty Hdate Hpc.
  apply truthy_nonempty in Hticker.
  destruct (forecast_columns_ok data price_col Hdate Hpc)
    as [df_train [Hcolumns [Hcols Hshape]]].
  destruct (forecast_clean_ok W df_train Hcols Hshape)
    as [cleaned [Hclean [Hcols' Hrows]]].
  exists cleaned. rewrite Hcolumns. cbn [rbind].
  split; [exact Hclean|]. split; [exact Hrows|].
  unfold st.log, forecast, st.bind.
  rewrite Hticker. cbn [negb].
  rewrite load_data_run, Hreset, Hempty, Hpc, Hdate. cbn [negb].
  unfold st.lift. rewrite Hcolumns.
  unfold pd.has_column. rewrite Hcols.
  cbn [filter existsb pd.is_label String.eqb Ascii.eqb Bool.eqb orb negb].
  rewrite Hclean. unfold pd.empty. rewrite Hcols'.
  split.
  - intros ->. split; [|reflexivity].
    exists (st.Error "Prepared data for Prophet is empty after cleaning.").
    split; [simpl; tauto | reflexivity].
  - intros Hne. destruct (pd.rows cleaned) as [|r rws] eqn:Hr; [congruence|].
    rewrite train_model_run.
    destruct (prophet W cleaned (n_years * 365)) as [forecast_data|e'].
    + split; [simpl; tauto|].
      intros e He. simpl in He.
      repeat (destruct He as [<- | He]; [try discriminate; reflexivity|]).
      destruct He.
    + split; [simpl; tauto|].
      intros e He. simpl in He.
      repeat (destruct He as [<- | He]; [try discriminate; reflexivity|]).
      destruct He.
Qed.

Lemma forecast_input_clean_unparsed :
  signals EmptyAfterCleaningError
    (st.log (forecast (world_of unparsed_bars) "ACME" 1) []) /\
  no_fit (st.log (forecast (world_of unparsed_bars) "ACME" 1) []).
Proof.
  destruct (forecast_input_clean (world_of unparsed_bars) "ACME" 1 []
              (pd.mkDF None bars_columns
                 [(pd.Int 0, [pd.Stamp 1; price 100; pd.Str "n/a"]);
                  (pd.Int 1, [pd.Stamp 2; price 100; pd.NA]);
                  (pd.Int 2, [pd.Stamp 3; price 110; pd.Num np.NaN])])
              "Close")
    as [cleaned [Hcleaned [_ [Hempty _]]]].
  - discriminate.
  - reflexivity.
  - reflexivity.
  - reflexivity.
  - reflexivity.
  - apply Hempty. injection Hcleaned as <-. reflexivity.
Defined.

(** ** The cached fundamentals retrievers *)

Lemma key_eqb_refl (k : list nat) : st.key_eqb k k = true.
Proof.
  induction k as [|a k IH]; simpl; [reflexivity|].
  now rewrite Nat.eqb_refl, IH.
Qed.

Lemma find_stored (fname : string) (key : list nat) (e : st.entry)
  (c : st.Cache) :
  st.find fname key ((fname, key, e) :: c) = Some e.
Proof.
  simpl. now rewrite String.eqb_refl, key_eqb_refl.
Qed.

Lemma cached_miss (fname : string) (params : list (string * nat))
  (body : st.M (option pd.DataFrame)) (c c' : st.Cache)
  (l : list st.event) (v : option pd.DataFrame) :
  st.find fname (st.hashed_args params) c = None ->
  body c = (l, Ok v, c') ->
  st.cached fname params body c
  = (l, Ok v, (fname, st.hashed_args params, (v, filter st.is_element l)) :: c').
Proof.
  intros Hfind Hbody. unfold st.cached. now rewrite Hfind, Hbody.
Qed.

Lemma cached_hit (fname : string) (params : list (string * nat))
  (body : st.M (option pd.DataFrame)) (c : st.Cache)
  (v : option pd.DataFrame) (replay : list st.event) :
  st.find fname (st.hashed_args params) c = Some (v, replay) ->
  st.cached fname params body c = (replay, Ok v, c).
Proof.
  intros Hfind. unfold st.cached. now rewrite Hfind.
Qed.

Lemma iloc_0_T (src : pd.DataFrame) :
  pd.empty src = false -> pd.iloc 0 (pd.T src) = Ok (first_column src).
Proof.
  unfold pd.empty, pd.iloc, pd.T, first_column. cbn [pd.rows].
  destruct (pd.rows src) as [|r rws]; [discriminate|].
  destruct (pd.columns src) as [|col cols]; [discriminate|].
  reflexivity.
Qed.

Lemma set_columns_first_column (src : pd.DataFrame) :
  pd.set_columns (first_column src) (pd.from_row 2 (pd.T src))
  = Ok (transposed_from_2 (first_column src) src).
Proof.
  unfold pd.set_columns, pd.from_row, pd.T, first_column, pd.index.
  cbn [pd.columns pd.rows pd.index_name].
  now rewrite !length_map, Nat.eqb_refl.
Qed.

(** Runs the body of a retriever on its source table [src]. *)
Ltac run_body src v l :=
  unfold st.bind, st.call, st.emit, st.error, st.lift, st.ret;
  fold src; subst v l; unfold retrieval;
  let Hempty := fresh "Hempty" in
  destruct (pd.empty src) eqn:Hempty;
  [ reflexivity
  | try rewrite (iloc_0_T src Hempty), set_columns_first_column;
    reflexivity ].

Lemma get_balance_sheet_miss (ticker : string) (fd : FundamentalData)
  (c : st.Cache) :
  st.find "get_balance_sheet" [] c = None ->
  let src := get_balance_sheet_annual fd ticker in
  let v := if pd.empty src then None
           else Some (transposed_from_2 (first_column src) src) in
  let l := retrieval (st.BalanceSheetAnnual ticker) src in
  get_balance_sheet ticker fd c
  = (l, Ok v, ("get_balance_sheet", [], (v, filter st.is_element l)) :: c).
Proof.
  intros Hfind src v l. unfold get_balance_sheet.
  apply (cached_miss "get_balance_sheet" [("_fd", handle fd)]); [exact Hfind|].
  run_body src v l.
Qed.

Lemma get_cashflow_statement_miss (ticker : string) (fd : FundamentalData)
  (c : st.Cache) :
  st.find "get_cashflow_statement" [] c = None ->
  let src := get_cash_flow_annual fd ticker in
  let v := if pd.empty src then None
           else Some (transposed_from_2 (first_column src) src) in
  let l := retrieval (st.CashFlowAnnual ticker) src in
  get_cashflow_statement ticker fd c
  = (l, Ok v, ("get_cashflow_statement", [], (v, filter st.is_element l)) :: c).
Proof.
  intros Hfind src v l. unfold get_cashflow_statement.
  apply (cached_miss "get_cashflow_statement" [("_fd", handle fd)]);
    [exact Hfind|].
  run_body src v l.
Qed.

Lemma get_income_statement_miss (ticker : string) (fd : FundamentalData)
  (c : st.Cache) :
  st.find "get_income_statement" [] c = None ->
  let src := get_income_statement_annual fd ticker in
  let v := if pd.empty src then None
           else Some (pd.from_row 2 (pd.T src)) in
  let l := retrieval (st.IncomeStatementAnnual ticker) src in
  get_income_statement ticker fd c
  = (l, Ok v, ("get_income_statement", [], (v, filter st.is_element l)) :: c).
Proof.
  intros Hfind src v l. unfold get_income_statement.
  apply (cached_miss "get_income_statement" [("_fd", handle fd)]);
    [exact Hfind|].
  run_body src v l.
Qed.

(** C8 (as amended).  The balance-sheet and the cash-flow retriever, run
    on a non-empty source table that is not yet cached, return its
    transpose without the first two rows, with the column labels set to
    the first row of the transpose, that is the first column of the
    source table. *)
Theorem statement_transposed (ticker : string) (fd : FundamentalData)
  (c : st.Cache) :
  (pd.empty (get_balance_sheet_annual fd ticker) = false ->
   st.find "get_balance_sheet" [] c = None ->
   st.outcome (get_balance_sheet ticker fd) c
   = Ok (Some (pd.mkDF None
                 (first_column (get_balance_sheet_annual fd ticker))
                 (skipn 2 (pd.rows (pd.T (get_balance_sheet_annual fd ticker))))))) /\
  (pd.empty (get_cash_flow_annual fd ticker) = false ->
   st.find "get_cashflow_statement" [] c = None ->
   st.outcome (get_cashflow_statement ticker fd) c
   = Ok (Some (pd.mkDF None
                 (first_column (get_cash_flow_annual fd ticker))
                 (skipn 2 (pd.rows (pd.T (get_cash_flow_annual fd ticker))))))).
Proof.
  split; intros Hempty Hfind; unfold st.outcome.
  - rewrite (get_balance_sheet_miss ticker fd c Hfind). cbn [fst snd].
    now rewrite Hempty.
  - rewrite (get_cashflow_statement_miss ticker fd c Hfind). cbn [fst snd].
    now rewrite Hempty.
Qed.

Lemma statement_transposed_demo :
  st.outcome (get_balance_sheet "ACME" demo_client) []
  = Ok (Some (pd.mkDF None
                [pd.Str "2023-12-31"; pd.Str "2022-12-31"]
                [(pd.Str "totalAssets", [pd.Str "100"; pd.Str "90"]);
                 (pd.Str "totalLiabilities", [pd.Str "60"; pd.Str "55"])])) /\
  st.outcome (get_cashflow_statement "ACME" demo_client) []
  = Ok (Some (pd.mkDF None
                [pd.Str "2023-12-31"; pd.Str "2022-12-31"]
                [(pd.Str "totalAssets", [pd.Str "100"; pd.Str "90"]);
                 (pd.Str "totalLiabilities", [pd.Str "60"; pd.Str "55"])])).
Proof.
  destruct (statement_transposed "ACME" demo_client []) as [Hbs Hcf].
  split.
  - apply Hbs; reflexivity.
  - apply Hcf; reflexivity.
Defined.

(** C8 as stated fails on [statement].  The labels the balance-sheet
    retriever sets are the first column of the source table (the period
    ends), not its first row; and the income-statement retriever sets no
    labels: its columns stay the row numbers of the source table. *)
Lemma statement_labels_not_first_row :
  exists bs ics,
    st.outcome (get_balance_sheet "ACME" demo_client) [] = Ok (Some bs) /\
    st.outcome (get_income_statement "ACME" demo_client) [] = Ok (Some ics) /\
    pd.columns bs = [pd.Str "2023-12-31"; pd.Str "2022-12-31"] /\
    first_row statement
    = [pd.Str "2023-12-31"; pd.Str "USD"; pd.Str "100"; pd.Str "60"] /\
    pd.columns bs <> first_row statement /\
    pd.columns ics = [pd.Int 0; pd.Int 1] /\
    pd.columns ics <> first_row statement.
Proof.
  do 2 eexists. split; [reflexivity|]. split; [reflexivity|].
  repeat split; discriminate.
Qed.

Lemma no_call_in_elements (l : list st.event) (r : st.request) :
  ~ In (st.Call r) (filter st.is_element l).
Proof.
  intros H. apply filter_In in H. destruct H as [_ H]. discriminate.
Qed.

(** A retriever whose first call missed the cache serves that result. *)
Lemma second_call_hits
  (retriever : string -> FundamentalData -> st.M (option pd.DataFrame))
  (fname : string) (t1 t2 : string) (fd1 fd2 : FundamentalData)
  (c : st.Cache) (l : list st.event) (v : option pd.DataFrame) :
  retriever t1 fd1 c = (l, Ok v, (fname, [], (v, filter st.is_element l)) :: c) ->
  (forall c' e, st.find fname [] c' = Some e ->
                retriever t2 fd2 c' = (snd e, Ok (fst e), c')) ->
  serves_first retriever t1 t2 fd1 fd2 c.
Proof.
  intros Hfirst Hhit. exists v. unfold st.outcome, st.cache_after, st.log.
  rewrite Hfirst. cbn [fst snd].
  pose proof (Hhit _ _ (find_stored fname [] (v, filter st.is_element l) c))
    as Hsecond.
  cbn [fst snd] in Hsecond. unfold st.entry in Hsecond. rewrite Hsecond.
  cbn [fst snd]. split; [reflexivity|]. split; [reflexivity|].
  intros r. apply no_call_in_elements.
Qed.

(** The key of the three retrievers is empty, whatever the client. *)
Lemma retrievers_hit (t : string) (fd : FundamentalData) (c : st.Cache)
  (e : st.entry) :
  (st.find "get_balance_sheet" [] c = Some e ->
   get_balance_sheet t fd c = (snd e, Ok (fst e), c)) /\
  (st.find "get_income_statement" [] c = Some e ->
   get_income_statement t fd c = (snd e, Ok (fst e), c)) /\
  (st.find "get_cashflow_statement" [] c = Some e ->
   get_cashflow_statement t fd c = (snd e, Ok (fst e), c)).
Proof.
  destruct e as [v replay].
  repeat split; intros Hfind;
    unfold get_balance_sheet, get_income_statement, get_cashflow_statement;
    now apply cached_hit.
Qed.

Lemma retrievers_serve_first (t1 t2 : string) (fd1 fd2 : FundamentalData)
  (c : st.Cache) :
  (st.find "get_balance_sheet" [] c = None ->
   serves_first get_balance_sheet t1 t2 fd1 fd2 c) /\
  (st.find "get_income_statement" [] c = None ->
   serves_first get_income_statement t1 t2 fd1 fd2 c) /\
  (st.find "get_cashflow_statement" [] c = None ->
   serves_first get_cashflow_statement t1 t2 fd1 fd2 c).
Proof.
  repeat split; intros Hfind.
  - eapply second_call_hits.
    + exact (get_balance_sheet_miss t1 fd1 c Hfind).
    + intros c' e He. now apply retrievers_hit.
  - eapply second_call_hits.
    + exact (get_income_statement_miss t1 fd1 c Hfind).
    + intros c' e He. now apply retrievers_hit.
  - eapply second_call_hits.
    + exact (get_cashflow_statement_miss t1 fd1 c Hfind).
    + intros c' e He. now apply retrievers_hit.
Qed.

(** C9 (as amended).  The key of a cached retriever holds neither the
    ticker nor the client: the parameter [_fd] starts with an
    underscore and is left out of the key, where a parameter named
    without it would be in.  So each retriever, called for a first
    ticker and then for a second one, with the same client or with
    another, returns on the second call the result computed for the
    first ticker and first client, and sends no request. *)
Theorem cached_key_is_empty (t1 t2 : string) (fd1 fd2 : FundamentalData)
  (c : st.Cache) :
  st.hashed_args [("_fd", handle fd1)] = [] /\
  st.hashed_args [("fd", handle fd1)] = [handle fd1] /\
  (st.find "get_balance_sheet" [] c = None ->
   serves_first get_balance_sheet t1 t2 fd1 fd2 c) /\
  (st.find "get_income_statement" [] c = None ->
   serves_first get_income_statement t1 t2 fd1 fd2 c) /\
  (st.find "get_cashflow_statement" [] c = None ->
   serves_first get_cashflow_statement t1 t2 fd1 fd2 c).
Proof.
  split; [reflexivity|]. split; [reflexivity|].
  apply retrievers_serve_first.
Qed.

Lemma cached_key_is_empty_demo :
  serves_first get_balance_sheet "ACME" "BETA" ticker_client ticker_client [] /\
  st.outcome (get_balance_sheet "BETA" ticker_client)
    (st.cache_after (get_balance_sheet "ACME" ticker_client) [])
  = st.outcome (get_balance_sheet "ACME" ticker_client) [] /\
  st.outcome (get_balance_sheet "BETA" ticker_client)
    (st.cache_after (get_balance_sheet "ACME" ticker_client) [])
  <> st.outcome (get_balance_sheet "BETA" ticker_client) [].
Proof.
  split.
  - apply (proj1 (proj2 (proj2 (cached_key_is_empty "ACME" "BETA"
                                  ticker_client ticker_client [])))).
    reflexivity.
  - split; [reflexivity | discriminate].
Defined.

(** C9 as stated fails: the cache is not keyed by the client.  A second
    client, with another handle and other statements, asking for the
    same ticker is served the table of the first client. *)
Lemma cached_result_served_to_other_client :
  handle demo_client <> handle other_client /\
  st.outcome (get_balance_sheet "ACME" other_client)
    (st.cache_after (get_balance_sheet "ACME" demo_client) [])
  = st.outcome (get_balance_sheet "ACME" demo_client) [] /\
  st.outcome (get_balance_sheet "ACME" other_client)
    (st.cache_after (get_balance_sheet "ACME" demo_client) [])
  <> st.outcome (get_balance_sheet "ACME" other_client) [].
Proof.
  split; [discriminate|]. split; [reflexivity | discriminate].
Qed.

(** ** The empty-ticker guard *)

Lemma log_bind {A B} (m : st.M A) (k : A -> st.M B) (c : st.Cache) :
  st.log (st.bind m k) c
  = st.log m c ++ match st.outcome m c with
                  | Ok a => st.log (k a) (st.cache_after m c)
                  | Raise _ => []
                  end.
Proof.
  unfold st.log, st.outcome, st.cache_after, st.bind.
  destruct (m c) as [[l1 [a|e]] c1]; cbn [fst snd].
  - now destruct (k a c1) as [[l2 r] c2].
  - now rewrite app_nil_r.
Qed.

Lemma log_emit_bind {B} (e : st.event) (k : unit -> st.M B) (c : st.Cache) :
  st.log (st.bind (st.emit e) k) c = e :: st.log (k tt) c.
Proof.
  now rewrite log_bind.
Qed.

Lemma guard_stops (W : World) (n_years : Z) (c : st.Cache) :
  stopped_at_guard (current W "" n_years) c /\
  stopped_at_guard (forecast W "" n_years) c /\
  stopped_at_guard (fundamental W "") c /\
  stopped_at_guard (news W "") c.
Proof.
  repeat split.
Qed.

Lemma price_views_download (W : World) (ticker : string) (n_years : Z)
  (c : st.Cache) :
  ticker <> "" ->
  let request :=
    st.Call (st.YfDownload ticker (start_date W n_years) (today_date W)) in
  (exists rest, st.log (current W ticker n_years) c = request :: rest) /\
  (exists rest, st.log (forecast W ticker n_years) c = request :: rest).
Proof.
  intros Hticker request. apply truthy_nonempty in Hticker.
  unfold current, forecast. rewrite Hticker. cbn [negb].
  split; rewrite log_bind; unfold st.log at 1; rewrite load_data_run;
    cbn [fst app]; eauto.
Qed.

Lemma news_reads_rss (W : World) (ticker : string) (c : st.Cache) :
  ticker <> "" ->
  exists rest,
    st.log (news W ticker) c
    = st.Header (String.append ticker " News")
        :: st.Call (st.ReadRss ticker) :: rest.
Proof.
  intros Hticker. apply truthy_nonempty in Hticker.
  unfold news. rewrite Hticker. cbn [negb].
  unfold st.header, st.call. rewrite !log_emit_bind. eauto.
Qed.

Lemma fundamental_raise (W : World) (ticker : string) (c : st.Cache) (e : exn) :
  ticker <> "" ->
  FundamentalData_init W (getenv W "ALPHAVANTAGE_KEY") = Raise e ->
  fundamental W ticker c = ([], Raise e, c).
Proof.
  intros Hticker Hinit. apply truthy_nonempty in Hticker.
  unfold fundamental. rewrite Hticker. cbn [negb].
  unfold st.bind, st.lift. now rewrite Hinit.
Qed.

Lemma fundamental_passes (W : World) (ticker : string) (c : st.Cache)
  (fd : FundamentalData) :
  ticker <> "" ->
  FundamentalData_init W (getenv W "ALPHAVANTAGE_KEY") = Ok fd ->
  exists rest,
    st.log (fundamental W ticker) c = st.Subheader "Balance Sheet" :: rest.
Proof.
  intros Hticker Hinit. apply truthy_nonempty in Hticker.
  unfold fundamental. rewrite Hticker. cbn [negb].
  rewrite log_bind. unfold st.log at 1, st.outcome, st.cache_after, st.lift.
  rewrite Hinit. cbn [fst snd app client_truthy negb].
  unfold st.subheader. rewrite log_emit_bind. eauto.
Qed.

Lemma fundamental_not_stopped (W : World) (ticker : string) (c : st.Cache) :
  ticker <> "" -> ~ stopped_at_guard (fundamental W ticker) c.
Proof.
  intros Hticker. unfold stopped_at_guard.
  destruct (FundamentalData_init W (getenv W "ALPHAVANTAGE_KEY"))
    as [fd|e] eqn:Hinit.
  - destruct (fundamental_passes W ticker c fd Hticker Hinit) as [rest Hlog].
    unfold st.log in Hlog. intros H. rewrite H in Hlog. discriminate.
  - rewrite (fundamental_raise W ticker c e Hticker Hinit). discriminate.
Qed.

(** The fundamentals view on a cache that holds nothing: all three
    endpoints are asked for the ticker. *)
Lemma fundamental_requests (W : World) (ticker : string)
  (fd : FundamentalData) :
  ticker <> "" ->
  FundamentalData_init W (getenv W "ALPHAVANTAGE_KEY") = Ok fd ->
  In (st.Call (st.BalanceSheetAnnual ticker)) (st.log (fundamental W ticker) []) /\
  In (st.Call (st.IncomeStatementAnnual ticker)) (st.log (fundamental W ticker) []) /\
  In (st.Call (st.CashFlowAnnual ticker)) (st.log (fundamental W ticker) []).
Proof.
  intros Hticker Hinit. apply truthy_nonempty in Hticker.
  unfold fundamental. rewrite Hticker. cbn [negb].
  unfold st.log, st.bind, st.lift. rewrite Hinit. cbn [client_truthy negb].
  unfold st.subheader, st.write, st.emit.
  rewrite (get_balance_sheet_miss ticker fd [] eq_refl).
  rewrite (get_income_statement_miss ticker fd) by reflexivity.
  rewrite (get_cashflow_statement_miss ticker fd) by reflexivity.
  unfold retrieval. cbn [fst app].
  repeat split; repeat (rewrite in_app_iff || simpl); tauto.
Qed.

(** C10 (as amended).  Each of the four views stops at the guard, with
    the empty-ticker warning alone, exactly when the ticker is the
    empty string.  For any other ticker, one of white space only
    included, the guard passes.  The overview and the forecast view
    then start with the download for that ticker, unchanged, and the
    news view reads the feed for it.  The fundamentals view goes on to
    build its client; when the client is built it reaches its
    retrievers, which on a cache that holds nothing ask all three
    endpoints for the ticker. *)
Theorem empty_ticker_guard (W : World) (ticker : string) (n_years : Z)
  (c : st.Cache) :
  (ticker = "" ->
   stopped_at_guard (current W ticker n_years) c /\
   stopped_at_guard (forecast W ticker n_years) c /\
   stopped_at_guard (fundamental W ticker) c /\
   stopped_at_guard (news W ticker) c) /\
  (ticker <> "" ->
   let download :=
     st.Call (st.YfDownload ticker (start_date W n_years) (today_date W)) in
   (exists rest, st.log (current W ticker n_years) c = download :: rest) /\
   (exists rest, st.log (forecast W ticker n_years) c = download :: rest) /\
   (exists rest,
      st.log (news W ticker) c
      = st.Header (String.append ticker " News")
          :: st.Call (st.ReadRss ticker) :: rest) /\
   ~ stopped_at_guard (current W ticker n_years) c /\
   ~ stopped_at_guard (forecast W ticker n_years) c /\
   ~ stopped_at_guard (fundamental W ticker) c /\
   ~ stopped_at_guard (news W ticker) c /\
   forall fd,
     FundamentalData_init W (getenv W "ALPHAVANTAGE_KEY") = Ok fd ->
     (exists rest,
        st.log (fundamental W ticker) c = st.Subheader "Balance Sheet" :: rest) /\
     In (st.Call (st.BalanceSheetAnnual ticker))
        (st.log (fundamental W ticker) []) /\
     In (st.Call (st.IncomeStatementAnnual ticker))
        (st.log (fundamental W ticker) []) /\
     In (st.Call (st.CashFlowAnnual ticker))
        (st.log (fundamental W ticker) [])).
Proof.
  split.
  - intros ->. apply guard_stops.
  - intros Hticker download.
    destruct (price_views_download W ticker n_years c Hticker)
      as [[r1 Hcurrent] [r2 Hforecast]].
    destruct (news_reads_rss W ticker c Hticker) as [r3 Hnews].
    split; [eauto|]. split; [eauto|]. split; [eauto|].
    split; [|split; [|split; [|split]]].
    + unfold stopped_at_guard, st.log in *.
      intros H; rewrite H in Hcurrent; discriminate.
    + unfold stopped_at_guard, st.log in *.
      intros H; rewrite H in Hforecast; discriminate.
    + now apply fundamental_not_stopped.
    + unfold stopped_at_guard, st.log in *.
      intros H; rewrite H in Hnews; discriminate.
    + intros fd Hinit. split.
      * exact (fundamental_passes W ticker c fd Hticker Hinit).
      * exact (fundamental_requests W ticker fd Hticker Hinit).
Qed.

Lemma empty_ticker_guard_blank :
  stopped_at_guard (current (world_of no_bars) "" 1) [] /\
  stopped_at_guard (news (world_of no_bars) "") [] /\
  ~ stopped_at_guard (current (world_of no_bars) " " 1) [] /\
  (exists rest,
     st.log (current (world_of no_bars) " " 1) []
     = st.Call (st.YfDownload " " (-365) 0) :: rest) /\
  (exists rest,
     st.log (news (world_of no_bars) " ") []
     = st.Header "  News" :: st.Call (st.ReadRss " ") :: rest) /\
  In (st.Call (st.BalanceSheetAnnual " "))
     (st.log (fundamental (world_of no_bars) " ") []).
Proof.
  destruct (proj1 (empty_ticker_guard (world_of no_bars) "" 1 []) eq_refl)
    as [Hcurrent [_ [_ Hnews]]].
  assert (Hblank : " " <> "") by discriminate.
  destruct (proj2 (empty_ticker_guard (world_of no_bars) " " 1 []) Hblank)
    as [Hdl [_ [Hrss [Hnot [_ [_ [_ Hfund]]]]]]].
  destruct (Hfund demo_client eq_refl) as [_ [Hbs _]].
  split; [exact Hcurrent|]. split; [exact Hnews|]. split; [exact Hnot|].
  split; [exact Hdl|]. split; [exact Hrss | exact Hbs].
Defined.

(** C10 as stated fails for the fundamentals view.  With the tables of
    an earlier ticker in the cache, a ticker of one space passes the
    guard, yet nothing is forwarded: the view sends no request. *)
Lemma warm_cache_forwards_nothing :
  let warm := st.cache_after (fundamental (world_of no_bars) "ACME") [] in
  " " <> "" /\
  ~ stopped_at_guard (fundamental (world_of no_bars) " ") warm /\
  st.outcome (fundamental (world_of no_bars) " ") warm = Ok tt /\
  requests (st.log (fundamental (world_of no_bars) " ") warm) = [].
Proof.
  split; [discriminate|]. split; [discriminate|]. split; reflexivity.
Qed.

(* ===================================================================== *)
(** * More of the script *)

(** ** Loading the price table *)

Lemma map_combine_seq {A B} (g : A -> B) (l : list A) (s : nat) :
  map (fun ir => g (snd ir)) (combine (seq s (List.length l)) l) = map g l.
Proof.
  revert s. induction l as [|a l IH]; intros s; simpl; [reflexivity|].
  now rewrite IH.
Qed.

Lemma map_combine_seq_fst {A B} (g : nat -> B) (l : list A) (s : nat) :
  map (fun ir => g (fst ir)) (combine (seq s (List.length l)) l)
  = map g (seq s (List.length l)).
Proof.
  revert s. induction l as [|a l IH]; intros s; simpl; [reflexivity|].
  now rewrite IH.
Qed.

Lemma is_label_refl (name : string) : pd.is_label name (pd.Str name) = true.
Proof. simpl. apply String.eqb_refl. Qed.

Lemma position_head (name : string) (cols : list pd.cell) :
  pd.position name (pd.Str name :: cols) = Some O.
Proof.
  cbn [pd.position]. now rewrite is_label_refl.
Qed.

Lemma getitem_absent (name : string) (df : pd.DataFrame) :
  pd.has_column name df = false -> pd.getitem name df = Raise (KeyError name).
Proof.
  intros H. unfold pd.getitem. now rewrite (position_absent _ _ H).
Qed.

Lemma getitem_present (name : string) (df : pd.DataFrame) :
  pd.has_column name df = true -> exists s, pd.getitem name df = Ok s.
Proof.
  intros H. unfold pd.getitem.
  destruct (position_present _ _ H) as [k ->]. eauto.
Qed.

(** X1.  When the label of the download's index is not yet one of its
    columns, [load_data] sends one request and returns a table whose
    first column, under that label, holds the former index; the rows
    are renumbered from 0 and every column of the download is still
    there with the same values. *)
Theorem load_data_keeps_columns (W : World) (ticker : string) (n_years : Z)
  (c : st.Cache) :
  pd.has_column (pd.index_label (download W ticker n_years))
    (download W ticker n_years) = false ->
  exists data,
    load_data W ticker n_years c
    = ([st.Call (st.YfDownload ticker (start_date W n_years) (today_date W))],
       Ok data, c) /\
    pd.getitem (pd.index_label (download W ticker n_years)) data
    = Ok (pd.index (download W ticker n_years)) /\
    pd.index data
    = range_index (List.length (pd.rows (download W ticker n_years))) /\
    forall name,
      pd.has_column name (download W ticker n_years) = true ->
      pd.getitem name data = pd.getitem name (download W ticker n_years).
Proof.
  intros Hfresh. rewrite load_data_run.
  set (raw := download W ticker n_years) in *.
  unfold pd.reset_index. rewrite Hfresh. eexists. split; [reflexivity|].
  unfold pd.getitem, pd.index, range_index. cbn [pd.columns pd.rows].
  rewrite position_head. split; [|split].
  - f_equal. rewrite map_map. cbn [snd nth].
    apply (map_combine_seq (fun r => fst r)).
  - rewrite map_map. cbn [fst].
    apply (map_combine_seq_fst (fun i => pd.Int (Z.of_nat i))).
  - intros name Hname. cbn [pd.position].
    destruct (pd.is_label name (pd.Str (pd.index_label raw))) eqn:Hsame.
    + simpl in Hsame. apply String.eqb_eq in Hsame. subst name. congruence.
    + destruct (position_present _ _ Hname) as [k Hk].
      unfold pd.has_column in Hname. rewrite Hk. cbn [option_map].
      f_equal. rewrite map_map. cbn [snd nth].
      apply (map_combine_seq (fun r => nth k (snd r) pd.NA)).
Qed.

Lemma load_data_keeps_columns_acme :
  exists data,
    load_data (world_of acme_raw) "ACME" 1 []
    = ([st.Call (st.YfDownload "ACME" (-365) 0)], Ok data, []) /\
    pd.getitem "Date" data = Ok [pd.Stamp 1; pd.Stamp 2; pd.Stamp 3] /\
    pd.index data = [pd.Int 0; pd.Int 1; pd.Int 2] /\
    pd.getitem "Close" data = Ok [price 100; price 110; price 99].
Proof.
  destruct (load_data_keeps_columns (world_of acme_raw) "ACME" 1 [])
    as [data [Hrun [Hdate [Hindex Hcols]]]]; [reflexivity|].
  exists data. split; [exact Hrun|]. split; [exact Hdate|].
  split; [exact Hindex|]. exact (Hcols "Close" eq_refl).
Defined.

(** ** The overview *)

Lemma removelast_cons_length {A} (a : A) (s : list A) :
  List.length (removelast (a :: s)) = List.length s.
Proof.
  revert a. induction s as [|b s IH]; intros a; [reflexivity|].
  change (removelast (a :: b :: s)) with (a :: removelast (b :: s)).
  cbn [List.length]. now rewrite IH.
Qed.

Lemma pct_change_head (a : np.float64) (s : list np.float64) :
  exists rest, pct_change (a :: s) = np.NaN :: rest /\
               List.length rest = List.length s.
Proof.
  unfold pct_change, pd.shift1. cbn [combine map fst snd].
  eexists. split.
  - f_equal. now destruct a.
  - rewrite length_map, length_combine.
    rewrite removelast_cons_length. apply Nat.min_id.
Qed.

(** X2.  Whatever the price table holds, as long as it has no
    "% Change" column of its own: when the returns table is computed,
    its first bar is gone, so it has at most n-1 rows; it has the
    columns of the price table followed by "% Change"; and each of its
    rows is a later bar of the price table without a missing cell,
    followed by a percent change that is not NaN. *)
Theorem returns_never_missing (data out : pd.DataFrame) :
  pd.has_column "% Change" data = false ->
  pct_change_frame data = Ok out ->
  (List.length (pd.rows out) <= List.length (pd.rows data) - 1)%nat /\
  pd.columns out = pd.columns data ++ [pd.Str "% Change"] /\
  forall r, In r (pd.rows out) ->
    exists bar x,
      In bar (tl (pd.rows data)) /\
      pd.row_complete bar = true /\
      np.isnan x = false /\
      r = (fst bar, snd bar ++ [pd.Num x]).
Proof.
  intros Hfresh. unfold pct_change_frame.
  destruct (pd.numeric (price_column data) data) as [xs|e] eqn:Hnum;
    [|discriminate].
  apply numeric_length in Hnum. cbn [rbind].
  unfold pd.setitem. rewrite (position_absent _ _ Hfresh).
  intros H. injection H as <-. unfold pd.dropna.
  cbn [pd.rows pd.columns pd.index_name].
  change (fun rv : pd.cell * list pd.cell * pd.cell =>
            (fst (fst rv), snd (fst rv) ++ [snd rv])) with extended.
  split; [|split; [reflexivity|]].
  - destruct (pd.rows data) as [|r0 rt]; [simpl; lia|].
    destruct xs as [|a xs]; [discriminate|].
    destruct (pct_change_head a xs) as [rest [-> Hrest]].
    cbn [map combine filter]. rewrite complete_extended.
    cbn [pd.isna negb]. rewrite andb_false_r.
    etransitivity; [apply filter_length_le|].
    rewrite length_map, length_combine. simpl. lia.
  - intros r Hr. apply filter_In in Hr. destruct Hr as [Hr Hcomplete].
    apply in_map_iff in Hr. destruct Hr as [[bar v] [<- Hin]].
    rewrite complete_extended in Hcomplete.
    apply andb_prop in Hcomplete. destruct Hcomplete as [Hbar Hv].
    destruct (pd.rows data) as [|r0 rt]; [destruct Hin|].
    destruct xs as [|a xs]; [discriminate|].
    destruct (pct_change_head a xs) as [rest [Hpct _]].
    rewrite Hpct in Hin. cbn [map combine] in Hin.
    destruct Hin as [Hin | Hin]; [injection Hin as <- <-; discriminate|].
    pose proof (in_combine_l _ _ _ _ Hin) as Hbar_in.
    apply in_combine_r in Hin. apply in_map_iff in Hin.
    destruct Hin as [x [<- _]].
    exists bar, x. cbn [tl]. repeat split; try assumption.
    now destruct x.
Qed.

Lemma returns_never_missing_gap :
  exists out,
    pct_change_frame gap_bars = Ok out /\
    (List.length (pd.rows out) <= 1)%nat /\
    pd.columns out = bars_columns ++ [pd.Str "% Change"].
Proof.
  eexists. split; [reflexivity|].
  destruct (returns_never_missing gap_bars _ eq_refl eq_refl) as [Hlen [Hcols _]].
  split; [exact Hlen | exact Hcols].
Defined.


(** The overview up to its first failing column access. *)
Lemma plot_ticker_data_raises (data : pd.DataFrame) (c : st.Cache)
  (name : string) :
  (name = "Date" /\ pd.has_column "Date" data = false) \/
  (name = "Open" /\ pd.has_column "Date" data = true /\
   pd.has_column "Open" data = false) \/
  (name = "Close" /\ pd.has_column "Date" data = true /\
   pd.has_column "Open" data = true /\ pd.has_column "Close" data = false) ->
  plot_ticker_data data c = ([], Raise (KeyError name), c).
Proof.
  unfold plot_ticker_data, st.bind, st.lift.
  intros [[-> Hd] | [[-> [Hd Ho]] | [-> [Hd [Ho Hc]]]]].
  - now rewrite (getitem_absent _ _ Hd).
  - destruct (getitem_present _ _ Hd) as [date ->].
    now rewrite (getitem_absent _ _ Ho).
  - destruct (getitem_present _ _ Hd) as [date ->].
    destruct (getitem_present _ _ Ho) as [open ->].
    now rewrite (getitem_absent _ _ Hc).
Qed.

(** X3.  A loaded, non-empty price table that lacks "Date", "Open" or
    "Close" makes the overview raise a KeyError for the first of them
    that is missing, right after the chart's heading: no message is
    shown for it, no metric is computed, and the script stops there, so
    the three other tabs are not run. *)
Theorem current_missing_column (W : World) (ticker : string) (n_years : Z)
  (c : st.Cache) (data : pd.DataFrame) (name : string) :
  ticker <> "" ->
  pd.reset_index (download W ticker n_years) = Ok data ->
  pd.empty data = false ->
  (name = "Date" /\ pd.has_column "Date" data = false) \/
  (name = "Open" /\ pd.has_column "Date" data = true /\
   pd.has_column "Open" data = false) \/
  (name = "Close" /\ pd.has_column "Date" data = true /\
   pd.has_column "Open" data = true /\ pd.has_column "Close" data = false) ->
  let page :=
    [st.Call (st.YfDownload ticker (start_date W n_years) (today_date W));
     st.Subheader "Time Series Chart"] in
  current W ticker n_years c = (page, Raise (KeyError name), c) /\
  dashboard W ticker n_years c = (page, Raise (KeyError name), c).
Proof.
  intros Hticker Hreset Hempty Hname page.
  apply truthy_nonempty in Hticker.
  assert (Hcurrent : current W ticker n_years c
                     = (page, Raise (KeyError name), c)).
  { unfold current, st.bind. rewrite Hticker. cbn [negb].
    rewrite load_data_run, Hreset, Hempty.
    unfold st.subheader, st.emit.
    now rewrite (plot_ticker_data_raises data c name Hname). }
  split; [exact Hcurrent|].
  unfold dashboard, st.bind. now rewrite Hcurrent.
Qed.

Lemma current_missing_column_close_only :
  dashboard (world_of close_only) "ACME" 1 []
  = ([st.Call (st.YfDownload "ACME" (-365) 0);
      st.Subheader "Time Series Chart"],
     Raise (KeyError "Open"), []).
Proof.
  refine (proj2 (current_missing_column (world_of close_only) "ACME" 1 []
                   (pd.mkDF None [pd.Str "Date"; pd.Str "Close"]
                      [(pd.Int 0, [pd.Stamp 1; price 100]);
                       (pd.Int 1, [pd.Stamp 2; price 110])])
                   "Open" _ _ _ _)).
  - discriminate.
  - reflexivity.
  - reflexivity.
  - right. left. repeat split.
Defined.






(** ** The metrics calculator at its edges *)

(** X5.  [get_metrics] needs the "% Change" column: without it the
    call raises a KeyError and shows nothing.  With the column but
    without a single value that is not NaN (no row at all, for one) it
    raises nothing and shows NaN for all three metrics. *)
Theorem get_metrics_without_values (data_copy : pd.DataFrame) (c : st.Cache) :
  (pd.has_column "% Change" data_copy = false ->
   get_metrics data_copy c = ([], Raise (KeyError "% Change"), c)) /\
  (forall pct,
     pd.numeric "% Change" data_copy = Ok pct ->
     np.notna pct = [] ->
     get_metrics data_copy c
     = ([st.Metric "Annual Return" np.NaN 4;
         st.Metric "Standard Deviation" np.NaN 4;
         st.Metric "Risk Adjusted Return" np.NaN 4],
        Ok tt, c)).
Proof.
  split.
  - intros Hcol. unfold get_metrics, st.bind, st.lift, pd.numeric.
    now rewrite (getitem_absent _ _ Hcol).
  - intros pct Hpct Hnone.
    unfold get_metrics, st.bind, st.lift, st.metric, st.emit.
    rewrite Hpct. unfold pd.mean, np.std. now rewrite Hnone.
Qed.

Lemma get_metrics_without_values_demo :
  get_metrics acme_bars [] = ([], Raise (KeyError "% Change"), []) /\
  get_metrics (return_series []) []
  = ([st.Metric "Annual Return" np.NaN 4;
      st.Metric "Standard Deviation" np.NaN 4;
      st.Metric "Risk Adjusted Return" np.NaN 4],
     Ok tt, []).
Proof.
  destruct (get_metrics_without_values acme_bars []) as [Hkey _].
  destruct (get_metrics_without_values (return_series []) []) as [_ Hnan].
  split.
  - apply Hkey. reflexivity.
  - apply (Hnan []); reflexivity.
Defined.

Lemma sqrt_252_sqr : sqrt 252 * sqrt 252 = 252.
Proof. apply sqrt_sqrt. lra. Qed.

(** X6.  For a series of finite returns that are not all equal, the two
    factors of 100 cancel and the risk-adjusted return shown is
    sqrt(252) x mean / populationStdDev: the annualized ratio of mean
    to deviation, a plain number although the page appends a percent
    sign. *)
Theorem risk_adjusted_return_is_ratio
  (data_copy : pd.DataFrame) (rs : list R) (c : st.Cache) :
  pd.numeric "% Change" data_copy = Ok (map np.Fin rs) ->
  rs <> [] ->
  populationStdDev rs <> 0 ->
  metric_value "Risk Adjusted Return" (st.log (get_metrics data_copy) c)
  = Some (np.Fin (sqrt 252 * (mean rs / populationStdDev rs))).
Proof.
  intros Hcol Hne Hsd. unfold st.log.
  rewrite (get_metrics_run data_copy rs c Hcol Hne).
  cbn [fst metric_value String.eqb Ascii.eqb Bool.eqb].
  pose proof sqrt_252_pos as Hpos. pose proof sqrt_252_sqr as Hsqr.
  rewrite div_fin by nra.
  do 2 f_equal. unfold annualReturnPct.
  rewrite <- Hsqr at 1. field. split; lra.
Qed.

Lemma risk_adjusted_return_is_ratio_example :
  metric_value "Risk Adjusted Return"
    (st.log (get_metrics (return_series example_returns)) [])
  = Some (np.Fin (sqrt 252 * (mean example_returns
                              / populationStdDev example_returns))).
Proof.
  apply (risk_adjusted_return_is_ratio (return_series example_returns)
           example_returns []).
  - apply numeric_return_series.
  - discriminate.
  - pose proof example_deviation_pos. lra.
Defined.

(** ** The forecast view *)

(** X7.  Once the download is loaded, the forecast view raises nothing
    of its own, whatever the table holds: an empty table, missing
    columns, values that are no numbers and an input left empty all
    end in a message on the page.  The view either returns or raises
    what the Forecast Adapter raised on the cleaned input, and then the
    page holds nothing after the two requests. *)
Theorem forecast_raises_only_in_adapter (W : World) (ticker : string)
  (n_years : Z) (c : st.Cache) (data : pd.DataFrame) :
  pd.reset_index (download W ticker n_years) = Ok data ->
  st.outcome (forecast W ticker n_years) c = Ok tt \/
  exists cleaned e,
    prophet W cleaned (n_years * 365) = Raise e /\
    forecast W ticker n_years c
    = ([st.Call (st.YfDownload ticker (start_date W n_years) (today_date W));
        st.Call (st.ProphetFit cleaned (n_years * 365))],
       Raise e, c).
Proof.
  intros Hreset. unfold st.outcome, forecast, st.bind.
  destruct (truthy ticker); cbn [negb]; [|now left].
  rewrite load_data_run, Hreset.
  destruct (pd.empty data); [now left|].
  destruct (forecast_price_col data) as [price_col|] eqn:Hpc; [|now left].
  destruct (pd.has_column "Date" data) eqn:Hdate; cbn [negb]; [|now left].
  destruct (forecast_columns_ok data price_col Hdate Hpc)
    as [df_train [Hcolumns [Hcols Hshape]]].
  destruct (forecast_clean_ok W df_train Hcols Hshape)
    as [cleaned [Hclean _]].
  unfold st.lift. rewrite Hcolumns.
  unfold pd.has_column. rewrite Hcols.
  cbn [filter existsb pd.is_label String.eqb Ascii.eqb Bool.eqb orb negb].
  rewrite Hclean.
  destruct (pd.empty cleaned); [now left|].
  rewrite train_model_run.
  destruct (prophet W cleaned (n_years * 365)) as [forecast_data|e] eqn:Hfit.
  - now left.
  - right. exists cleaned, e. split; [exact Hfit | reflexivity].
Qed.

Lemma forecast_raises_only_in_adapter_one_bar :
  st.outcome (forecast (world_of one_bar) "ACME" 1) [] = Ok tt \/
  exists cleaned e,
    prophet (world_of one_bar) cleaned (1 * 365) = Raise e /\
    forecast (world_of one_bar) "ACME" 1 []
    = ([st.Call (st.YfDownload "ACME" (start_date (world_of one_bar) 1)
                   (today_date (world_of one_bar)));
        st.Call (st.ProphetFit cleaned (1 * 365))],
       Raise e, []).
Proof.
  eapply (forecast_raises_only_in_adapter (world_of one_bar) "ACME" 1 []).
  reflexivity.
Defined.

(** X8.  A loaded, non-empty table that has neither "Close" nor
    "Adj Close", or that has no "Date" column, makes the forecast view
    show the missing-columns error followed by the labels of the
    columns that are there; nothing is handed to the Forecast Adapter. *)
Theorem forecast_missing_columns (W : World) (ticker : string) (n_years : Z)
  (c : st.Cache) (data : pd.DataFrame) :
  ticker <> "" ->
  pd.reset_index (download W ticker n_years) = Ok data ->
  pd.empty data = false ->
  forecast_price_col data = None \/ pd.has_column "Date" data = false ->
  forecast W ticker n_years c
  = (st.Call (st.YfDownload ticker (start_date W n_years) (today_date W))
       :: missing_columns_page data,
     Ok tt, c) /\
  signals MissingRequiredColumns (missing_columns_page data) /\
  no_fit (missing_columns_page data).
Proof.
  intros Hticker Hreset Hempty Hmissing.
  apply truthy_nonempty in Hticker.
  split; [|split; [|reflexivity]].
  - unfold forecast, st.bind. rewrite Hticker. cbn [negb].
    rewrite load_data_run, Hreset, Hempty.
    destruct Hmissing as [-> | Hdate]; [reflexivity|].
    rewrite Hdate. now destruct (forecast_price_col data).
  - eexists. split; [left; reflexivity | reflexivity].
Qed.

Lemma forecast_missing_columns_unnamed :
  forecast (world_of unnamed_index) "ACME" 1 []
  = ([st.Call (st.YfDownload "ACME" (-365) 0);
      st.Error "Data does not contain required columns for forecasting.";
      st.WriteOut [st.Text "Available columns:";
                   st.Labels [pd.Str "index"; pd.Str "Open"; pd.Str "Close"]]],
     Ok tt, []).
Proof.
  refine (proj1 (forecast_missing_columns (world_of unnamed_index) "ACME" 1 []
                   (pd.mkDF None [pd.Str "index"; pd.Str "Open"; pd.Str "Close"]
                      [(pd.Int 0, [pd.Stamp 1; price 100; price 100])])
                   _ _ _ _)).
  - discriminate.
  - reflexivity.
  - reflexivity.
  - right. reflexivity.
Defined.

(** X9.  When the forecast input has at least one row and the Forecast
    Adapter returns a prediction for it, the view has fitted on exactly
    that input with a horizon of n_years x 365 days and shows, in this
    order, that one prediction three times: as the forecast chart, as
    the components figure and as the table under "Forecast Analysis". *)
Theorem forecast_page (W : World) (ticker : string) (n_years : Z)
  (c : st.Cache) (data cleaned forecast_data : pd.DataFrame)
  (price_col : string) :
  ticker <> "" ->
  pd.reset_index (download W ticker n_years) = Ok data ->
  pd.empty data = false ->
  pd.has_column "Date" data = true ->
  forecast_price_col data = Some price_col ->
  rbind (forecast_columns price_col data) (forecast_clean W) = Ok cleaned ->
  pd.rows cleaned <> [] ->
  prophet W cleaned (n_years * 365) = Ok forecast_data ->
  forecast W ticker n_years c
  = ([st.Call (st.YfDownload ticker (start_date W n_years) (today_date W));
      st.Call (st.ProphetFit cleaned (n_years * 365));
      st.Subheader "Forecast Chart";
      st.PlotlyChart (st.ForecastPlot forecast_data);
      st.Subheader "Forecast Components";
      st.WriteOut [st.Fig (st.Components forecast_data)];
      st.Subheader "Forecast Analysis";
      st.WriteOut [st.Frame forecast_data]],
     Ok tt, c).
Proof.
  intros Hticker Hreset Hempty Hdate Hpc Hcleaned Hrows Hfit.
  apply truthy_nonempty in Hticker.
  destruct (forecast_columns_ok data price_col Hdate Hpc)
    as [df_train [Hcolumns [Hcols Hshape]]].
  destruct (forecast_clean_ok W df_train Hcols Hshape)
    as [cleaned' [Hclean [Hcols' _]]].
  rewrite Hcolumns in Hcleaned. cbn [rbind] in Hcleaned.
  rewrite Hclean in Hcleaned. injection Hcleaned as ->.
  unfold forecast, st.bind. rewrite Hticker. cbn [negb].
  rewrite load_data_run, Hreset, Hempty, Hpc, Hdate. cbn [negb].
  unfold st.lift. rewrite Hcolumns.
  unfold pd.has_column. rewrite Hcols.
  cbn [filter existsb pd.is_label String.eqb Ascii.eqb Bool.eqb orb negb].
  rewrite Hclean. unfold pd.empty. rewrite Hcols'.
  destruct (pd.rows cleaned) as [|r rws]; [congruence|].
  rewrite train_model_run, Hfit. reflexivity.
Qed.

Lemma forecast_page_acme :
  forecast (world_of acme_raw) "ACME" 2 []
  = (let input :=
       pd.mkDF None [pd.Str "ds"; pd.Str "y"]
         [(pd.Int 0, [pd.Stamp 1; price 100]);
          (pd.Int 1, [pd.Stamp 2; price 110]);
          (pd.Int 2, [pd.Stamp 3; price 99])] in
     ([st.Call (st.YfDownload "ACME" (-730) 0);
       st.Call (st.ProphetFit input 730);
       st.Subheader "Forecast Chart";
       st.PlotlyChart (st.ForecastPlot input);
       st.Subheader "Forecast Components";
       st.WriteOut [st.Fig (st.Components input)];
       st.Subheader "Forecast Analysis";
       st.WriteOut [st.Frame input]],
      Ok tt, [])).
Proof.
  refine (forecast_page (world_of acme_raw) "ACME" 2 [] acme_bars _ _ "Close"
            _ _ _ _ _ _ _ _).
  - discriminate.
  - reflexivity.
  - reflexivity.
  - reflexivity.
  - reflexivity.
  - reflexivity.
  - discriminate.
  - reflexivity.
Defined.

(** ** The news view *)

Lemma for_each_run {A} (body : A -> st.M unit) (block : A -> list st.event)
  (l : list A) (c : st.Cache) :
  (forall a c', body a c' = (block a, Ok tt, c')) ->
  st.for_each l body c = (flat_map block l, Ok tt, c).
Proof.
  intros Hbody. induction l as [|a l IH]; [reflexivity|].
  cbn [st.for_each flat_map]. unfold st.bind. now rewrite Hbody, IH.
Qed.

Lemma dividers_of_blocks (l : list Article) :
  List.length (filter is_divider (flat_map article_block l)) = List.length l.
Proof.
  induction l as [|a l IH]; [reflexivity|].
  cbn [flat_map article_block app filter is_divider List.length].
  now rewrite IH.
Qed.

(** X10.  For a ticker that is not empty the news view shows the
    header, reads the feed once and then shows the articles of the feed
    in order, five elements each, stopping after the tenth: the page
    has min(10, number of articles) dividers.  The view raises nothing
    and does not touch the cache. *)
Theorem news_first_ten (W : World) (ticker : string) (c : st.Cache) :
  ticker <> "" ->
  news W ticker c
  = (st.Header (String.append ticker " News")
       :: st.Call (st.ReadRss ticker)
       :: flat_map article_block (firstn 10 (read_rss W ticker)),
     Ok tt, c) /\
  List.length (filter is_divider (st.log (news W ticker) c))
  = Nat.min 10 (List.length (read_rss W ticker)).
Proof.
  intros Hticker. apply truthy_nonempty in Hticker.
  assert (Hrun : news W ticker c
                 = (st.Header (String.append ticker " News")
                      :: st.Call (st.ReadRss ticker)
                      :: flat_map article_block (firstn 10 (read_rss W ticker)),
                    Ok tt, c)).
  { unfold news. rewrite Hticker. cbn [negb].
    unfold st.bind at 1 2, st.header, st.call, st.emit.
    rewrite (for_each_run _ article_block); [reflexivity|].
    intros a c'. reflexivity. }
  split; [exact Hrun|].
  unfold st.log. rewrite Hrun. cbn [fst filter is_divider].
  now rewrite dividers_of_blocks, length_firstn.
Qed.

Lemma news_first_ten_of_twelve :
  List.length (filter is_divider (st.log (news newsy_world "ACME") [])) = 10%nat /\
  List.length (read_rss newsy_world "ACME") = 12%nat.
Proof.
  assert (Hticker : "ACME" <> "") by discriminate.
  destruct (news_first_ten newsy_world "ACME" [] Hticker) as [_ Hcount].
  split; [exact Hcount | reflexivity].
Defined.

(** ** The fundamentals view *)

(** The view on a cache that holds nothing. *)
Lemma fundamental_cold_run (W : World) (ticker : string)
  (fd : FundamentalData) :
  ticker <> "" ->
  FundamentalData_init W (getenv W "ALPHAVANTAGE_KEY") = Ok fd ->
  let bs := get_balance_sheet_annual fd ticker in
  let ics := get_income_statement_annual fd ticker in
  let cf := get_cash_flow_annual fd ticker in
  fundamental W ticker []
  = (section_of "Balance Sheet"
       (retrieval (st.BalanceSheetAnnual ticker) bs) (statement_view bs)
     ++ section_of "Income Statement"
          (retrieval (st.IncomeStatementAnnual ticker) ics) (income_view ics)
     ++ section_of "Cash Flow Statement"
          (retrieval (st.CashFlowAnnual ticker) cf) (statement_view cf),
     Ok tt,
     [("get_cashflow_statement", [],
       (statement_view cf,
        filter st.is_element (retrieval (st.CashFlowAnnual ticker) cf)));
      ("get_income_statement", [],
       (income_view ics,
        filter st.is_element (retrieval (st.IncomeStatementAnnual ticker) ics)));
      ("get_balance_sheet", [],
       (statement_view bs,
        filter st.is_element (retrieval (st.BalanceSheetAnnual ticker) bs)))]).
Proof.
  intros Hticker Hinit bs ics cf. apply truthy_nonempty in Hticker.
  unfold fundamental. rewrite Hticker. cbn [negb].
  unfold st.bind, st.lift. rewrite Hinit. cbn [client_truthy negb].
  unfold st.subheader, st.write, st.emit.
  rewrite (get_balance_sheet_miss ticker fd [] eq_refl).
  rewrite (get_income_statement_miss ticker fd) by reflexivity.
  rewrite (get_cashflow_statement_miss ticker fd) by reflexivity.
  fold bs ics cf. unfold section_of, statement_view, income_view.
  cbn [app]. rewrite <- !app_assoc. reflexivity.
Qed.

Lemma requests_retrieval (r : st.request) (src : pd.DataFrame) :
  requests (retrieval r src) = [st.Call r] /\
  filter st.is_element (retrieval r src)
  = (if pd.empty src then [st.Error "Invalid Ticker"] else []).
Proof.
  unfold requests, retrieval. now destruct (pd.empty src).
Qed.

Lemma requests_app (l1 l2 : list st.event) :
  requests (l1 ++ l2) = requests l1 ++ requests l2.
Proof. apply filter_app. Qed.

Lemma requests_section (heading : string) (r : st.request)
  (src : pd.DataFrame) (v : option pd.DataFrame) :
  requests (section_of heading (retrieval r src) v) = [st.Call r].
Proof.
  unfold section_of, retrieval, requests. now destruct (pd.empty src).
Qed.

(** X11.  For a ticker that is not empty the fundamentals view first
    builds its client from the key in the environment.  Without a key
    the constructor's exception leaves the view at once: nothing is
    shown and no request is sent.  With the client built and a cache
    that holds nothing, the view raises nothing and sends exactly three
    requests, all for that ticker: balance sheet, income statement,
    cash flow, in this order. *)
Theorem fundamental_three_requests (W : World) (ticker : string)
  (c : st.Cache) :
  ticker <> "" ->
  (forall e,
     FundamentalData_init W (getenv W "ALPHAVANTAGE_KEY") = Raise e ->
     fundamental W ticker c = ([], Raise e, c)) /\
  (forall fd,
     FundamentalData_init W (getenv W "ALPHAVANTAGE_KEY") = Ok fd ->
     st.outcome (fundamental W ticker) [] = Ok tt /\
     requests (st.log (fundamental W ticker) [])
     = [st.Call (st.BalanceSheetAnnual ticker);
        st.Call (st.IncomeStatementAnnual ticker);
        st.Call (st.CashFlowAnnual ticker)]).
Proof.
  intros Hticker. split.
  - intros e Hinit. now apply fundamental_raise.
  - intros fd Hinit. unfold st.outcome, st.log.
    rewrite (fundamental_cold_run W ticker fd Hticker Hinit). cbn [fst snd].
    split; [reflexivity|].
    now rewrite !requests_app, !requests_section.
Qed.

Lemma fundamental_three_requests_acme :
  requests (st.log (fundamental (world_of no_bars) "ACME") [])
  = [st.Call (st.BalanceSheetAnnual "ACME");
     st.Call (st.IncomeStatementAnnual "ACME");
     st.Call (st.CashFlowAnnual "ACME")] /\
  fundamental newsy_world "ACME" []
  = ([], Raise (ValueError "The Alpha Vantage API key must be provided"), []).
Proof.
  assert (Hticker : "ACME" <> "") by discriminate.
  split.
  - exact (proj2 (proj2 (fundamental_three_requests (world_of no_bars) "ACME" []
                           Hticker) demo_client eq_refl)).
  - exact (proj1 (fundamental_three_requests newsy_world "ACME" [] Hticker)
             _ eq_refl).
Defined.

Lemma elements_section (heading : string) (l : list st.event)
  (v : option pd.DataFrame) :
  filter st.is_element (section_of heading l v)
  = section_of heading (filter st.is_element l) v.
Proof.
  unfold section_of. cbn [filter st.is_element]. now rewrite filter_app.
Qed.

Lemma requests_of_elements (l : list st.event) :
  requests (filter st.is_element l) = [].
Proof.
  unfold requests. induction l as [|e l IH]; [reflexivity|].
  cbn [filter]. destruct (st.is_element e) eqn:He; [|exact IH].
  cbn [filter]. now rewrite He.
Qed.

Lemma balance_sheet_hit (t : string) (fd : FundamentalData) (c : st.Cache)
  (e : st.entry) :
  st.find "get_balance_sheet" [] c = Some e ->
  get_balance_sheet t fd c = (snd e, Ok (fst e), c).
Proof. apply retrievers_hit. Qed.

Lemma income_statement_hit (t : string) (fd : FundamentalData) (c : st.Cache)
  (e : st.entry) :
  st.find "get_income_statement" [] c = Some e ->
  get_income_statement t fd c = (snd e, Ok (fst e), c).
Proof. apply retrievers_hit. Qed.

Lemma cashflow_statement_hit (t : string) (fd : FundamentalData) (c : st.Cache)
  (e : st.entry) :
  st.find "get_cashflow_statement" [] c = Some e ->
  get_cashflow_statement t fd c = (snd e, Ok (fst e), c).
Proof. apply retrievers_hit. Qed.

(** X12.  With its client built, the fundamentals view run for a first
    ticker on a cache that holds nothing and then for a second ticker
    shows, the second time, the page of the first run without its
    requests: the same three tables and messages, no request for the
    second ticker, the cache left as it was. *)
Theorem fundamental_second_run (W : World) (t1 t2 : string)
  (fd : FundamentalData) :
  t1 <> "" ->
  t2 <> "" ->
  FundamentalData_init W (getenv W "ALPHAVANTAGE_KEY") = Ok fd ->
  let c1 := st.cache_after (fundamental W t1) [] in
  fundamental W t2 c1
  = (filter st.is_element (st.log (fundamental W t1) []), Ok tt, c1) /\
  requests (st.log (fundamental W t2) c1) = [].
Proof.
  intros H1 H2 Hinit c1.
  assert (Hrun : fundamental W t2 c1
                 = (filter st.is_element (st.log (fundamental W t1) []),
                    Ok tt, c1)).
  { subst c1. unfold st.cache_after, st.log.
    rewrite (fundamental_cold_run W t1 fd H1 Hinit). cbn [fst snd].
    apply truthy_nonempty in H2.
    unfold fundamental. rewrite H2. cbn [negb].
    unfold st.bind, st.lift. rewrite Hinit. cbn [client_truthy negb].
    unfold st.subheader, st.write, st.emit.
    erewrite balance_sheet_hit by reflexivity.
    erewrite income_statement_hit by reflexivity.
    erewrite cashflow_statement_hit by reflexivity.
    cbn [fst snd].
    rewrite !filter_app, !elements_section.
    unfold section_of. cbn [app]. rewrite <- !app_assoc. reflexivity. }
  split; [exact Hrun|].
  unfold st.log at 1. rewrite Hrun. cbn [fst]. apply requests_of_elements.
Qed.

Lemma fundamental_second_run_demo :
  requests
    (st.log (fundamental (world_of no_bars) "BETA")
       (st.cache_after (fundamental (world_of no_bars) "ACME") []))
  = [].
Proof.
  assert (H1 : "ACME" <> "") by discriminate.
  assert (H2 : "BETA" <> "") by discriminate.
  exact (proj2 (fundamental_second_run (world_of no_bars) "ACME" "BETA"
                  demo_client H1 H2 eq_refl)).
Defined.

(** X13.  An empty answer is cached like any other: when the first
    call of a retriever gets an empty table, every later call, for any
    ticker and any client, shows "Invalid Ticker" again and returns
    None without sending a request. *)
Theorem invalid_ticker_cached (t1 t2 : string) (fd1 fd2 : FundamentalData)
  (c : st.Cache) :
  (st.find "get_balance_sheet" [] c = None ->
   pd.empty (get_balance_sheet_annual fd1 t1) = true ->
   let c1 := st.cache_after (get_balance_sheet t1 fd1) c in
   get_balance_sheet t2 fd2 c1 = ([st.Error "Invalid Ticker"], Ok None, c1)) /\
  (st.find "get_income_statement" [] c = None ->
   pd.empty (get_income_statement_annual fd1 t1) = true ->
   let c1 := st.cache_after (get_income_statement t1 fd1) c in
   get_income_statement t2 fd2 c1 = ([st.Error "Invalid Ticker"], Ok None, c1)) /\
  (st.find "get_cashflow_statement" [] c = None ->
   pd.empty (get_cash_flow_annual fd1 t1) = true ->
   let c1 := st.cache_after (get_cashflow_statement t1 fd1) c in
   get_cashflow_statement t2 fd2 c1 = ([st.Error "Invalid Ticker"], Ok None, c1)).
Proof.
  repeat split; intros Hfind Hempty c1; subst c1; unfold st.cache_after.
  - rewrite (get_balance_sheet_miss t1 fd1 c Hfind). cbn [snd].
    rewrite (balance_sheet_hit t2 fd2 _ _ (find_stored _ _ _ _)).
    unfold retrieval. now rewrite Hempty.
  - rewrite (get_income_statement_miss t1 fd1 c Hfind). cbn [snd].
    rewrite (income_statement_hit t2 fd2 _ _ (find_stored _ _ _ _)).
    unfold retrieval. now rewrite Hempty.
  - rewrite (get_cashflow_statement_miss t1 fd1 c Hfind). cbn [snd].
    rewrite (cashflow_statement_hit t2 fd2 _ _ (find_stored _ _ _ _)).
    unfold retrieval. now rewrite Hempty.
Qed.

Lemma invalid_ticker_cached_nope :
  get_balance_sheet "ACME" demo_client
    (st.cache_after (get_balance_sheet "NOPE" picky_client) [])
  = ([st.Error "Invalid Ticker"], Ok None,
     st.cache_after (get_balance_sheet "NOPE" picky_client) []) /\
  pd.empty (get_balance_sheet_annual demo_client "ACME") = false.
Proof.
  split; [|reflexivity].
  apply (proj1 (invalid_ticker_cached "NOPE" "ACME" picky_client demo_client []));
    reflexivity.
Defined.

Lemma T_index (src : pd.DataFrame) : pd.index (pd.T src) = pd.columns src.
Proof.
  unfold pd.index, pd.T. cbn [pd.rows]. rewrite map_map. cbn [fst].
  rewrite (map_combine_seq (fun col => col)). apply map_id.
Qed.

Lemma T_row_length (src : pd.DataFrame) (r : pd.cell * list pd.cell) :
  In r (pd.rows (pd.T src)) -> List.length (snd r) = List.length (pd.rows src).
Proof.
  unfold pd.T. cbn [pd.rows]. intros Hr.
  apply in_map_iff in Hr. destruct Hr as [kc [<- _]].
  cbn [snd]. apply length_map.
Qed.

Lemma in_skipn {A} (n : nat) (l : list A) (a : A) :
  In a (skipn n l) -> In a l.
Proof.
  revert l. induction n as [|n IH]; intros l; [trivial|].
  destruct l as [|b l]; [trivial|]. simpl. intros H. right. now apply IH.
Qed.

(** X14.  The income-statement retriever, run on a non-empty source
    table that is not yet cached, returns the transpose without its
    first two rows and assigns no labels: the column labels of the
    result are the row labels of the source table. *)
Theorem income_statement_row_labels (ticker : string) (fd : FundamentalData)
  (c : st.Cache) :
  pd.empty (get_income_statement_annual fd ticker) = false ->
  st.find "get_income_statement" [] c = None ->
  exists ics,
    st.outcome (get_income_statement ticker fd) c = Ok (Some ics) /\
    pd.columns ics = pd.index (get_income_statement_annual fd ticker) /\
    pd.rows ics = skipn 2 (pd.rows (pd.T (get_income_statement_annual fd ticker))).
Proof.
  intros Hempty Hfind. unfold st.outcome.
  rewrite (get_income_statement_miss ticker fd c Hfind). cbn [fst snd].
  rewrite Hempty. eexists. split; [reflexivity|]. split; reflexivity.
Qed.

Lemma income_statement_row_labels_demo :
  exists ics,
    st.outcome (get_income_statement "ACME" demo_client) [] = Ok (Some ics) /\
    pd.columns ics = [pd.Int 0; pd.Int 1] /\
    pd.rows ics
    = [(pd.Str "totalAssets", [pd.Str "100"; pd.Str "90"]);
       (pd.Str "totalLiabilities", [pd.Str "60"; pd.Str "55"])].
Proof.
  destruct (income_statement_row_labels "ACME" demo_client [] eq_refl eq_refl)
    as [ics [Hout [Hcols Hrows]]].
  exists ics. split; [exact Hout|]. split; [exact Hcols | exact Hrows].
Defined.

(** X15.  The shape of a retrieved statement.  For a non-empty source
    table that is not yet cached, the table the balance-sheet retriever
    returns is rectangular, has one column per row of the source table
    and one row per column of the source table after the first two,
    labelled with those column names; the cash-flow retriever
    likewise. *)
Theorem statement_shape (ticker : string) (fd : FundamentalData)
  (c : st.Cache) :
  (pd.empty (get_balance_sheet_annual fd ticker) = false ->
   st.find "get_balance_sheet" [] c = None ->
   exists bs,
     st.outcome (get_balance_sheet ticker fd) c = Ok (Some bs) /\
     pd.index bs = skipn 2 (pd.columns (get_balance_sheet_annual fd ticker)) /\
     List.length (pd.columns bs)
     = List.length (pd.rows (get_balance_sheet_annual fd ticker)) /\
     rectangular bs) /\
  (pd.empty (get_cash_flow_annual fd ticker) = false ->
   st.find "get_cashflow_statement" [] c = None ->
   exists cf,
     st.outcome (get_cashflow_statement ticker fd) c = Ok (Some cf) /\
     pd.index cf = skipn 2 (pd.columns (get_cash_flow_annual fd ticker)) /\
     List.length (pd.columns cf)
     = List.length (pd.rows (get_cash_flow_annual fd ticker)) /\
     rectangular cf).
Proof.
  assert (Hshape : forall src,
            pd.index (transposed_from_2 (first_column src) src)
            = skipn 2 (pd.columns src) /\
            List.length (pd.columns (transposed_from_2 (first_column src) src))
            = List.length (pd.rows src) /\
            rectangular (transposed_from_2 (first_column src) src)).
  { intros src. unfold transposed_from_2, rectangular, pd.index, first_column.
    cbn [pd.rows pd.columns]. split; [|split].
    - rewrite <- skipn_map. f_equal. apply (T_index src).
    - apply length_map.
    - intros r Hr. apply in_skipn in Hr.
      rewrite (T_row_length src r Hr). now rewrite length_map. }
  split; intros Hempty Hfind; unfold st.outcome.
  - rewrite (get_balance_sheet_miss ticker fd c Hfind). cbn [fst snd].
    rewrite Hempty. eexists. split; [reflexivity | apply Hshape].
  - rewrite (get_cashflow_statement_miss ticker fd c Hfind). cbn [fst snd].
    rewrite Hempty. eexists. split; [reflexivity | apply Hshape].
Qed.

Lemma statement_shape_demo :
  exists bs,
    st.outcome (get_balance_sheet "ACME" demo_client) [] = Ok (Some bs) /\
    pd.index bs = [pd.Str "totalAssets"; pd.Str "totalLiabilities"] /\
    List.length (pd.columns bs) = 2%nat.
Proof.
  destruct (proj1 (statement_shape "ACME" demo_client []) eq_refl eq_refl)
    as [bs [Hout [Hindex [Hcols _]]]].
  exists bs. split; [exact Hout|]. split; [exact Hindex | exact Hcols].
Defined.

(** ** Zero prices *)

Lemma pct_change_tail_nth (xt : list np.float64) (x0 : np.float64) (j : nat)
  (a b : np.float64) :
  nth_error xt j = Some a ->
  nth_error (x0 :: xt) j = Some b ->
  nth_error
    (map (fun pq => np.sub (np.div (fst pq) (snd pq)) (np.Fin 1))
         (combine xt (removelast (x0 :: xt)))) j
  = Some (np.sub (np.div a b) (np.Fin 1)).
Proof.
  revert x0 j. induction xt as [|x1 xt IH]; intros x0 j Ha Hb.
  - destruct j; discriminate.
  - change (removelast (x0 :: x1 :: xt)) with (x0 :: removelast (x1 :: xt)).
    cbn [combine map]. destruct j as [|j].
    + simpl in Ha, Hb. injection Ha as <-. injection Hb as <-. reflexivity.
    + cbn [nth_error] in *. now apply IH.
Qed.

Lemma in_combine_nth {A B} (l1 : list A) (l2 : list B) (i : nat) (a : A) (b : B) :
  nth_error l1 i = Some a -> nth_error l2 i = Some b -> In (a, b) (combine l1 l2).
Proof.
  revert l2 i. induction l1 as [|x l1 IH]; intros l2 i Ha Hb.
  - destruct i; discriminate.
  - destruct l2 as [|y l2]; [destruct i; discriminate|].
    destruct i as [|i]; simpl in *.
    + injection Ha as <-. injection Hb as <-. now left.
    + right. now apply (IH l2 i).
Qed.

(** X16.  A zero price is not cleaned away.  In a price table without a
    "% Change" column whose selected prices are all finite, a bar that
    has no missing cell, a non-zero price and a zero price on the bar
    before it stays in the returns table, with an infinite percent
    change of the sign of its price. *)
Theorem zero_price_infinite_change (data : pd.DataFrame) (prices : list R)
  (i : nat) (label : pd.cell) (cells : list pd.cell) (p : R) :
  pd.has_column "% Change" data = false ->
  pd.numeric (price_column data) data = Ok (map np.Fin prices) ->
  nth_error (pd.rows data) (S i) = Some (label, cells) ->
  pd.row_complete (label, cells) = true ->
  nth_error prices i = Some 0 ->
  nth_error prices (S i) = Some p ->
  p <> 0 ->
  exists out,
    pct_change_frame data = Ok out /\
    In (label, cells ++ [pd.Num (np.Inf (np.is_neg p))]) (pd.rows out).
Proof.
  intros Hfresh Hnum Hrow Hcomplete Hzero Hp Hnz.
  unfold pct_change_frame. rewrite Hnum. cbn [rbind].
  eexists. split; [reflexivity|].
  unfold pd.setitem. rewrite (position_absent _ _ Hfresh).
  unfold pd.dropna. cbn [pd.rows].
  change (fun rv : pd.cell * list pd.cell * pd.cell =>
            (fst (fst rv), snd (fst rv) ++ [snd rv])) with extended.
  apply filter_In. split.
  - change (label, cells ++ [pd.Num (np.Inf (np.is_neg p))])
      with (extended ((label, cells), pd.Num (np.Inf (np.is_neg p)))).
    apply in_map. apply (in_combine_nth _ _ (S i)); [exact Hrow|].
    rewrite nth_error_map.
    destruct prices as [|p0 pt]; [discriminate|].
    unfold pct_change, pd.shift1.
    change (map np.Fin (p0 :: pt)) with (np.Fin p0 :: map np.Fin pt).
    cbn [combine map nth_error].
    rewrite (pct_change_tail_nth (map np.Fin pt) (np.Fin p0) i
               (np.Fin p) (np.Fin 0)).
    + cbn [option_map np.div]. rewrite is_zero_true, (is_zero_false p Hnz).
      reflexivity.
    + cbn [nth_error] in Hp. now rewrite nth_error_map, Hp.
    + change (np.Fin p0 :: map np.Fin pt) with (map np.Fin (p0 :: pt)).
      now rewrite nth_error_map, Hzero.
  - change (label, cells ++ [pd.Num (np.Inf (np.is_neg p))])
      with (extended ((label, cells), pd.Num (np.Inf (np.is_neg p)))).
    rewrite complete_extended, Hcomplete. reflexivity.
Qed.

Lemma zero_price_infinite_change_halted :
  exists out,
    pct_change_frame halted_bars = Ok out /\
    In (pd.Int 1, [pd.Stamp 2; price 1; price 5] ++ [pd.Num (np.Inf (np.is_neg 5))])
       (pd.rows out).
Proof.
  apply (zero_price_infinite_change halted_bars [0; 5] 0 (pd.Int 1)
           [pd.Stamp 2; price 1; price 5] 5); try reflexivity.
  lra.
Defined.

(** ** The forecast input, once more *)

Lemma filter_all {A} (f : A -> bool) (l : list A) :
  (forall a, In a l -> f a = true) -> filter f l = l.
Proof.
  induction l as [|a l IH]; intros H; [reflexivity|].
  cbn [filter]. rewrite (H a (or_introl eq_refl)). f_equal.
  apply IH. intros b Hb. apply H. now right.
Qed.

Lemma map_combine_self {A B} (f : A -> B) (g : A * B -> A) (l : list A) :
  (forall a, In a l -> g (a, f a) = a) ->
  map g (combine l (map f l)) = l.
Proof.
  induction l as [|a l IH]; intros H; [reflexivity|].
  cbn [map combine]. rewrite (H a (or_introl eq_refl)). f_equal.
  apply IH. intros b Hb. apply H. now right.
Qed.

Lemma number_stays (parse : string -> option np.float64) (y : pd.cell) :
  is_number y = true -> pd.to_numeric1 parse y = y /\ pd.isna y = false.
Proof.
  destruct y as [x | z | s | t |]; try discriminate; [|now split].
  now destruct x.
Qed.

(** The cleaning leaves a clean (ds, y) frame as it is. *)
Lemma forecast_clean_fixed (W : World) (df : pd.DataFrame) :
  pd.columns df = [pd.Str "ds"; pd.Str "y"] ->
  (forall r, In r (pd.rows df) -> clean_row r) ->
  forecast_clean W df = Ok df.
Proof.
  destruct df as [iname cols rws]. cbn [pd.columns pd.rows].
  intros -> Hclean.
  unfold forecast_clean, pd.dropna_subset, pd.positions, pd.getitem, pd.setitem.
  cbn. rewrite (filter_all _ rws).
  2:{ intros r Hr. destruct (Hclean r Hr) as [d [y [-> [Hd Hy]]]].
      cbn. rewrite Hd. now rewrite (proj2 (number_stays (parse_float W) y Hy)). }
  unfold pd.to_numeric. rewrite map_map.
  rewrite (map_combine_self _ _ rws).
  2:{ intros [lab cs] Hr. destruct (Hclean _ Hr) as [d [y [E [Hd Hy]]]].
      cbn [snd fst] in *. subst cs. cbn.
      now rewrite (proj1 (number_stays (parse_float W) y Hy)). }
  rewrite (filter_all _ rws); [reflexivity|].
  intros r Hr. destruct (Hclean r Hr) as [d [y [-> [Hd Hy]]]].
  cbn. now rewrite (proj2 (number_stays (parse_float W) y Hy)).
Qed.

(** X17.  Cleaning is idempotent and only removes: for a loaded table
    with its Date and price columns, the forecast input has no more
    rows than the table, and cleaning it once more gives it back
    unchanged. *)
Theorem forecast_clean_idempotent (W : World) (data : pd.DataFrame)
  (price_col : string) :
  pd.has_column "Date" data = true ->
  forecast_price_col data = Some price_col ->
  exists cleaned,
    rbind (forecast_columns price_col data) (forecast_clean W) = Ok cleaned /\
    forecast_clean W cleaned = Ok cleaned /\
    (List.length (pd.rows cleaned) <= List.length (pd.rows data))%nat.
Proof.
  intros Hdate Hpc.
  destruct (forecast_columns_ok data price_col Hdate Hpc)
    as [df_train [Hcolumns [Hcols Hshape]]].
  destruct (forecast_clean_ok W df_train Hcols Hshape)
    as [cleaned [Hclean [Hcols' Hrows]]].
  exists cleaned. rewrite Hcolumns. cbn [rbind].
  split; [exact Hclean|]. split; [now apply forecast_clean_fixed|].
  assert (Hlen : List.length (pd.rows df_train) = List.length (pd.rows data)).
  { destruct (position_present _ _ Hdate) as [kd Hkd].
    destruct (position_present _ _ (proj1 (forecast_price_col_cases _ _ Hpc)))
      as [kp Hkp].
    unfold forecast_columns, pd.select, pd.positions in Hcolumns.
    cbn [rmap rbind] in Hcolumns. rewrite Hkd, Hkp in Hcolumns.
    cbn [rbind] in Hcolumns. injection Hcolumns as <-.
    cbn [pd.rename pd.rows]. apply length_map. }
  rewrite <- Hlen. clear - Hclean Hcols.
  destruct df_train as [iname cols rws]. cbn [pd.columns pd.rows] in *.
  subst cols.
  unfold forecast_clean, pd.dropna_subset, pd.positions, pd.getitem, pd.setitem
    in Hclean.
  cbn in Hclean. injection Hclean as <-. cbn [pd.rows].
  etransitivity; [apply filter_length_le|].
  rewrite length_map, length_combine.
  etransitivity; [apply Nat.le_min_l|]. apply filter_length_le.
Qed.

Lemma forecast_clean_idempotent_acme :
  exists cleaned,
    rbind (forecast_columns "Close" acme_bars) (forecast_clean (world_of acme_raw))
    = Ok cleaned /\
    forecast_clean (world_of acme_raw) cleaned = Ok cleaned /\
    (List.length (pd.rows cleaned) <= 3)%nat.
Proof.
  exact (forecast_clean_idempotent (world_of acme_raw) acme_bars "Close"
           eq_refl eq_refl).
Defined.
